(** * Live-Polling backend: a shallow embedding of the Socket.IO server

    The development follows the fuller of the two server variants (the one
    with name-collision resolution and the chat rooms).  The older variant,
    [server.js], has the same [resetPoll], [endPoll], [teacher_start_poll],
    [submit_answer], [teacher_end_poll], [kick_student] and status handlers,
    text for text; it differs only in [join_student] (no collision loop) and
    in having no chat.

    Modelling conventions.
    - The module-level [let] variables of the server ([currentPoll],
      [students], [pollResults], [pastPolls], [pollTimeout], [chatMessages],
      [chatParticipants]) are the fields of one [State] record; every handler
      is a function from the state (plus the socket id, the clock reading and
      the payload) to the new state and the list of emitted events, in
      emission order.  Node runs each handler to completion, so one handler
      call is one atomic step.
    - [Date.now()] is the argument [now] (milliseconds, an integer); one
      reading is used for a whole handler call.
    - JavaScript strings are [string]s whose characters are the code units
      below 256; [trim] removes the ECMAScript white space and line
      terminators of that range.
    - [students] is a JavaScript object keyed by socket id.  Socket ids are
      not array indices, so property order is insertion order: the object is
      an association list, updated in place or extended at the end.
    - [pollResults] and the two chat tables are only read by key, so they are
      finite maps.
    - Socket.IO room membership ([socket.join], [socket.leave]) belongs to the
      transport; an emission to a room is recorded with the room's name.
    - Keys (socket ids, option texts, chat session ids) are taken to be
      ordinary property names: a key that names a member of
      [Object.prototype] (such as [__proto__] or [constructor]) is outside
      the model. *)

From Stdlib Require Import ZArith Lia Ascii String.
From stdpp Require Import base option list strings gmap pretty.

#[local] Set Warnings "-clear-no-such-hyp".

Open Scope string_scope.
Open Scope list_scope.
Open Scope Z_scope.

(** ** Strings *)

(** White space and line terminators (ECMAScript [WhiteSpace] and
    [LineTerminator]) among the code units below 256: TAB, LF, VT, FF, CR,
    SP and NBSP. *)
Definition is_white_space (c : ascii) : bool :=
  match N_of_ascii c with
  | 9%N | 10%N | 11%N | 12%N | 13%N | 32%N | 160%N => true
  | _ => false
  end.

Fixpoint trim_start (s : string) : string :=
  match s with
  | EmptyString => EmptyString
  | String c r => if is_white_space c then trim_start r else s
  end.

Fixpoint trim_end (s : string) : string :=
  match s with
  | EmptyString => EmptyString
  | String c r =>
      match trim_end r with
      | EmptyString => if is_white_space c then EmptyString else String c EmptyString
      | r' => String c r'
      end
  end.

(** [String.prototype.trim]. *)
Definition trim (s : string) : string := trim_end (trim_start s).

(** [Array.prototype.includes] on an array of strings. *)
Definition includes (x : string) (l : list string) : bool :=
  existsb (String.eqb x) l.

(** ** JavaScript objects with insertion order *)

Section JsObject.
Context {V : Type}.

(** [o[k]] *)
Fixpoint obj_get (k : string) (o : list (string * V)) : option V :=
  match o with
  | [] => None
  | (k', v) :: r => if String.eqb k k' then Some v else obj_get k r
  end.

(** [o[k] = v]: an existing property keeps its place, a new one goes last. *)
Fixpoint obj_set (k : string) (v : V) (o : list (string * V)) : list (string * V) :=
  match o with
  | [] => [(k, v)]
  | (k', v') :: r =>
      if String.eqb k k' then (k, v) :: r else (k', v') :: obj_set k v r
  end.

(** [delete o[k]] *)
Fixpoint obj_delete (k : string) (o : list (string * V)) : list (string * V) :=
  match o with
  | [] => []
  | (k', v') :: r =>
      if String.eqb k k' then r else (k', v') :: obj_delete k r
  end.

(** [Object.keys(o)] and [Object.values(o)] *)
Definition obj_keys (o : list (string * V)) : list string := map fst o.
Definition obj_values (o : list (string * V)) : list V := map snd o.
End JsObject.

(** ** Data *)

Record Poll := mkPoll {
  question : string;
  options : list string;
  duration : Z;            (* seconds *)
  startTime : Z;           (* milliseconds *)
  createdBy : string
}.

Record Student := mkStudent {
  name : string;
  originalName : string;
  answered : bool;
  joinedAt : Z;
  tabId : string;
  answer : option string;     (* absent until the first answer *)
  answeredAt : option Z
}.

(** A counter of [pollResults].  [pollResults[answer]++] on a property that
    does not exist stores NaN. *)
Inductive count := Num (n : nat) | NaN.

(** [{...currentPoll, results, endTime, totalStudents, answeredStudents}] *)
Record PastPoll := mkPastPoll {
  poll : Poll;
  results : gmap string count;
  endTime : Z;
  totalStudents : nat;
  answeredStudents : nat
}.

(** The id of a chat message is [Date.now() + Math.random()]; the floating
    point sum is not computed, the two summands are kept.  [time] is the
    locale-formatted clock string, supplied with the request. *)
Record ChatMessage := mkChatMessage {
  m_id : Z * Z;
  m_user : string;
  m_message : string;
  m_timestamp : Z;
  m_time : string
}.

Record ChatParticipant := mkChatParticipant {
  p_id : string;
  p_name : string;
  p_joinedAt : Z
}.

Record State := mkState {
  currentPoll : option Poll;
  students : list (string * Student);
  pollResults : gmap string count;
  pastPolls : list PastPoll;
  pollTimeout : option Z;     (* the armed timer and its delay in ms *)
  chatMessages : gmap string (list ChatMessage);
  chatParticipants : gmap string (list ChatParticipant)
}.

Definition initial : State := mkState None [] ∅ [] None ∅ ∅.

(** ** Emitted events *)

Inductive target :=
  | ToSocket (sid : string)     (* socket.emit, io.to(socketId).emit *)
  | ToAll                       (* io.emit *)
  | ToRoom (room : string).     (* io.to(room).emit *)

Inductive message :=
  | E_join_error (m : string)
  | E_join_success (nm orig : string) (msg : option string)
  | E_new_question (p : Poll) (timeRemaining : option Z)
  | E_student_count_update (n : nat)
  | E_poll_error (m : string)
  | E_poll_started (p : Poll)
  | E_answer_error (m : string)
  | E_answer_submitted (ans : string) (res : gmap string count) (m : string)
  | E_live_results (res : gmap string count) (total answeredN : nat)
  | E_poll_ended (res : gmap string count) (q : string) (opts : list string)
  | E_current_results (p : Poll) (res : gmap string count)
                      (total answeredN : nat) (timeRemaining : Z)
  | E_no_active_poll
  | E_poll_ended_by_teacher
  | E_kicked (m : string)
  | E_student_kicked (nm : string)
  | E_kick_error (m : string)
  | E_students_list (l : list (string * bool * Z))
  | E_past_polls (l : list PastPoll)
  | E_server_status (connectedStudents : nat)
                    (activePoll : option (string * list string * Z))
                    (totalPastPolls : nat)
  | E_chat_history (l : list ChatMessage)
  | E_participants_updated (l : list ChatParticipant)
  | E_new_message (m : ChatMessage)
  | E_user_kicked (m userName : string).

Definition emission : Type := target * message.

(** ** The poll engine *)

Definition set_answered (b : bool) (st : Student) : Student :=
  mkStudent (name st) (originalName st) b (joinedAt st) (tabId st)
            (answer st) (answeredAt st).

(** [Object.keys(students).forEach(id => students[id].answered = false)] *)
Definition reset_answered (o : list (string * Student)) : list (string * Student) :=
  map (fun kv => (fst kv, set_answered false (snd kv))) o.

(** [Object.values(students).filter(s => s.answered).length] *)
Definition answered_count (o : list (string * Student)) : nat :=
  length (List.filter answered (obj_values o)).

(** [Object.values(students).filter(s => !s.answered).length] *)
Definition unanswered_count (o : list (string * Student)) : nat :=
  length (List.filter (fun s => negb (answered s)) (obj_values o)).

(** [resetPoll()]: archive the current poll if there is one, clear the poll,
    the tally, the answered flags and the timer. *)
Definition resetPoll (now : Z) (s : State) : State :=
  mkState
    None
    (reset_answered (students s))
    ∅
    (match currentPoll s with
     | Some p =>
         pastPolls s ++
           [mkPastPoll p (pollResults s) now
                       (length (obj_keys (students s)))
                       (answered_count (students s))]
     | None => pastPolls s
     end)
    None
    (chatMessages s)
    (chatParticipants s).

(** [endPoll()]: broadcast the results and reset, only if a poll is active. *)
Definition endPoll (now : Z) (s : State) : State * list emission :=
  match currentPoll s with
  | Some p =>
      (resetPoll now s,
       [(ToAll, E_poll_ended (pollResults s) (question p) (options p))])
  | None => (s, [])
  end.

(** [Math.max(0, startTime + duration * 1000 - Date.now())] *)
Definition timeRemaining (now : Z) (p : Poll) : Z :=
  Z.max 0 (startTime p + duration p * 1000 - now).

(** *** join_student *)

(** The [while (existingStudents.includes(uniqueName))] loop.  [fuel] bounds
    the number of iterations; [unique_name] supplies more than the loop can
    use (see [unique_name_fresh]). *)
Fixpoint unique_name_loop (fuel : nat) (existingStudents : list string)
    (trimmedName : string) (counter : nat) (uniqueName : string) : string :=
  match fuel with
  | O => uniqueName
  | S fuel' =>
      if includes uniqueName existingStudents then
        let counter' := S counter in
        unique_name_loop fuel' existingStudents trimmedName counter'
          (trimmedName +:+ " (" +:+ pretty counter' +:+ ")")
      else uniqueName
  end.

Definition unique_name (existingStudents : list string) (trimmedName : string)
    : string :=
  unique_name_loop (S (length existingStudents)) existingStudents
                   trimmedName 1%nat trimmedName.

(** The [join_success] payload, read back from [students[socket.id]]. *)
Definition join_success_of (st : Student) (trimmedName : string) : message :=
  E_join_success
    (name st)
    (if String.eqb (originalName st) "" then name st else originalName st)
    (if String.eqb (name st) trimmedName then None
     else Some "Name was modified to ensure uniqueness").

Definition join_student (sid : string) (now : Z) (nm : string) (s : State)
    : State * list emission :=
  if String.eqb nm "" || String.eqb (trim nm) "" then
    (s, [(ToSocket sid, E_join_error "Name is required")])
  else
    let trimmedName := trim nm in
    let st' :=
      match obj_get sid (students s) with
      | Some st =>
          (* re-join: name, answered and joinedAt are overwritten *)
          mkStudent trimmedName (originalName st) false now (tabId st)
                    (answer st) (answeredAt st)
      | None =>
          let existingStudents := map name (obj_values (students s)) in
          let uniqueName := unique_name existingStudents trimmedName in
          mkStudent uniqueName trimmedName false now sid None None
      end in
    let students' := obj_set sid st' (students s) in
    (mkState (currentPoll s) students' (pollResults s) (pastPolls s)
             (pollTimeout s) (chatMessages s) (chatParticipants s),
     [(ToSocket sid, join_success_of st' trimmedName)]
       ++ match currentPoll s with
          | Some p => [(ToSocket sid, E_new_question p (Some (timeRemaining now p)))]
          | None => []
          end
       ++ [(ToAll, E_student_count_update (length (obj_keys students')))]).

(** *** teacher_start_poll *)

(** The [duration] field of the payload: absent, [null], or a whole number of
    seconds. *)
Inductive duration_field := DurAbsent | DurNull | DurNum (n : Z).

(** The payload [{question, options, duration}]; [None] is an absent (or
    [null]) field. *)
Record PollData := mkPollData {
  pd_question : option string;
  pd_options : option (list string);
  pd_duration : duration_field
}.

(** [!pollData.question || !pollData.options || pollData.options.length < 2] *)
Definition invalid_poll_data (pd : PollData) : bool :=
  match pd_question pd, pd_options pd with
  | None, _ => true
  | Some _, None => true
  | Some q, Some opts => String.eqb q "" || (length opts <? 2)%nat
  end.

(** [pollData.duration || 60] *)
Definition duration_or_default (d : duration_field) : Z :=
  match d with
  | DurNum n => if n =? 0 then 60 else n
  | DurAbsent | DurNull => 60
  end.

(** [currentPoll.options.forEach(option => pollResults[option] = 0)] *)
Definition init_results (opts : list string) : gmap string count :=
  fold_left (fun m o => <[o := Num 0]> m) opts ∅.

Definition invalid_poll_msg : string :=
  "Invalid poll data. Question and at least 2 options required.".

Definition still_active_msg (unansweredStudents : nat) : string :=
  "Previous poll still active. " +:+ pretty unansweredStudents
    +:+ " student(s) haven't responded yet.".

Definition teacher_start_poll (sid : string) (now : Z) (pd : PollData)
    (s : State) : State * list emission :=
  if invalid_poll_data pd then
    (s, [(ToSocket sid, E_poll_error invalid_poll_msg)])
  else if (match currentPoll s with Some _ => true | None => false end)
          && (0 <? unanswered_count (students s))%nat then
    (s, [(ToSocket sid,
          E_poll_error (still_active_msg (unanswered_count (students s))))])
  else
    let s1 := resetPoll now s in
    let p := mkPoll (trim (default "" (pd_question pd)))
                    (map trim (default [] (pd_options pd)))
                    (duration_or_default (pd_duration pd))
                    now "teacher" in
    (mkState (Some p)
             (reset_answered (students s1))
             (init_results (options p))
             (pastPolls s1)
             (Some (duration p * 1000))
             (chatMessages s1)
             (chatParticipants s1),
     [(ToAll, E_new_question p None); (ToSocket sid, E_poll_started p)]).

(** *** submit_answer *)

(** [pollResults[answer]++] *)
Definition increment (k : string) (m : gmap string count) : gmap string count :=
  <[k := match m !! k with
         | Some (Num n) => Num (S n)
         | _ => NaN
         end]> m.

Definition submit_answer (sid : string) (now : Z) (ans : string) (s : State)
    : State * list emission :=
  match currentPoll s with
  | None => (s, [(ToSocket sid, E_answer_error "No active poll")])
  | Some p =>
      match obj_get sid (students s) with
      | None =>
          (s, [(ToSocket sid, E_answer_error "Please join as a student first")])
      | Some st =>
          if answered st then
            (s, [(ToSocket sid,
                  E_answer_error "You have already answered this poll")])
          else if negb (includes ans (options p)) then
            (s, [(ToSocket sid, E_answer_error "Invalid answer option")])
          else if now - startTime p >? duration p * 1000 then
            (s, [(ToSocket sid, E_answer_error "Poll has expired")])
          else
            let st' := mkStudent (name st) (originalName st) true (joinedAt st)
                                 (tabId st) (Some ans) (Some now) in
            let students' := obj_set sid st' (students s) in
            let results' := increment ans (pollResults s) in
            let s1 := mkState (currentPoll s) students' results' (pastPolls s)
                              (pollTimeout s) (chatMessages s)
                              (chatParticipants s) in
            let out :=
              [(ToSocket sid,
                E_answer_submitted ans results' "Your answer has been recorded!");
               (ToAll,
                E_live_results results' (length (obj_keys students'))
                               (answered_count students'))] in
            if forallb answered (obj_values students')
               && (0 <? length (obj_keys students'))%nat
            then let '(s2, out2) := endPoll now s1 in (s2, out ++ out2)
            else (s1, out)
      end
  end.

(** *** Reading and ending the poll, managing the roster *)

Definition get_current_results (sid : string) (now : Z) (s : State)
    : State * list emission :=
  match currentPoll s with
  | Some p =>
      (s, [(ToSocket sid,
            E_current_results p (pollResults s)
              (length (obj_keys (students s)))
              (answered_count (students s))
              (timeRemaining now p))])
  | None => (s, [(ToSocket sid, E_no_active_poll)])
  end.

Definition teacher_end_poll (sid : string) (now : Z) (s : State)
    : State * list emission :=
  match currentPoll s with
  | Some _ =>
      let '(s1, out) := endPoll now s in
      (s1, out ++ [(ToSocket sid, E_poll_ended_by_teacher)])
  | None => (s, [(ToSocket sid, E_no_active_poll)])
  end.

(** [Object.keys(students).find(id => students[id].name === studentName)] *)
Definition find_by_name (studentName : string) (o : list (string * Student))
    : option string :=
  fst <$> List.find (fun kv => String.eqb (name (snd kv)) studentName) o.

Definition kick_student (sid : string) (studentName : string) (s : State)
    : State * list emission :=
  match find_by_name studentName (students s) with
  | Some studentSocketId =>
      if String.eqb studentSocketId "" then
        (* the empty string is falsy *)
        (s, [(ToSocket sid, E_kick_error "Student not found")])
      else
        let students' := obj_delete studentSocketId (students s) in
        (mkState (currentPoll s) students' (pollResults s) (pastPolls s)
                 (pollTimeout s) (chatMessages s) (chatParticipants s),
         [(ToSocket studentSocketId,
           E_kicked "You have been removed from the session by the teacher.");
          (ToAll, E_student_count_update (length (obj_keys students')));
          (ToSocket sid, E_student_kicked studentName)])
  | None => (s, [(ToSocket sid, E_kick_error "Student not found")])
  end.

Definition get_students (sid : string) (s : State) : State * list emission :=
  (s, [(ToSocket sid,
        E_students_list
          (map (fun st => (name st, answered st, joinedAt st))
               (obj_values (students s))))]).

Definition get_past_polls (sid : string) (s : State) : State * list emission :=
  (s, [(ToSocket sid, E_past_polls (pastPolls s))]).

Definition get_status (sid : string) (now : Z) (s : State)
    : State * list emission :=
  (s, [(ToSocket sid,
        E_server_status
          (length (obj_keys (students s)))
          (match currentPoll s with
           | Some p => Some (question p, options p, timeRemaining now p)
           | None => None
           end)
          (length (pastPolls s)))]).

(** The callback given to [setTimeout] is [endPoll]; the runtime calls it
    only while the timer is armed ([clearTimeout] disarms it). *)
Definition timer_fires (now : Z) (s : State) : State * list emission :=
  match pollTimeout s with
  | Some _ => endPoll now s
  | None => (s, [])
  end.

(** ** The chat rooms *)

Definition room_of (sessionId : string) : string := "chat-" +:+ sessionId.

(** [arr.splice(arr.findIndex(f), 1)] when the index is not -1. *)
Fixpoint remove_first {A : Type} (f : A -> bool) (l : list A) : list A :=
  match l with
  | [] => []
  | x :: r => if f x then r else x :: remove_first f r
  end.

Definition join_chat (sid : string) (now : Z) (sessionId user : string)
    (s : State) : State * list emission :=
  let msgs := default [] (chatMessages s !! sessionId) in
  let parts := default [] (chatParticipants s !! sessionId) in
  let parts' :=
    match List.find (fun p => String.eqb (p_name p) user) parts with
    | Some _ => parts
    | None => parts ++ [mkChatParticipant sid user now]
    end in
  (mkState (currentPoll s) (students s) (pollResults s) (pastPolls s)
           (pollTimeout s)
           (<[sessionId := msgs]> (chatMessages s))
           (<[sessionId := parts']> (chatParticipants s)),
   [(ToSocket sid, E_chat_history msgs);
    (ToRoom (room_of sessionId), E_participants_updated parts')]).

Definition send_message (sid : string) (now : Z) (rnd : Z) (clock : string)
    (sessionId user msg : string) (s : State) : State * list emission :=
  let messageObj := mkChatMessage (now, rnd) user msg now clock in
  let msgs := default [] (chatMessages s !! sessionId) in
  (mkState (currentPoll s) (students s) (pollResults s) (pastPolls s)
           (pollTimeout s)
           (<[sessionId := msgs ++ [messageObj]]> (chatMessages s))
           (chatParticipants s),
   [(ToRoom (room_of sessionId), E_new_message messageObj)]).

Definition kick_user (sid : string) (sessionId userName : string) (s : State)
    : State * list emission :=
  match chatParticipants s !! sessionId with
  | Some parts =>
      match List.find (fun p => String.eqb (p_name p) userName) parts with
      | Some participant =>
          let parts' :=
            remove_first (fun p => String.eqb (p_name p) userName) parts in
          (mkState (currentPoll s) (students s) (pollResults s) (pastPolls s)
                   (pollTimeout s) (chatMessages s)
                   (<[sessionId := parts']> (chatParticipants s)),
           [(ToSocket (p_id participant),
             E_user_kicked
               "You have been removed from the chat by the teacher." userName);
            (ToRoom (room_of sessionId), E_participants_updated parts')])
      | None => (s, [])
      end
  | None => (s, [])
  end.

Definition leave_chat (sid : string) (sessionId user : string) (s : State)
    : State * list emission :=
  match chatParticipants s !! sessionId with
  | Some parts =>
      let parts' := List.filter (fun p => negb (String.eqb (p_id p) sid)) parts in
      (mkState (currentPoll s) (students s) (pollResults s) (pastPolls s)
               (pollTimeout s) (chatMessages s)
               (<[sessionId := parts']> (chatParticipants s)),
       [(ToRoom (room_of sessionId), E_participants_updated parts')])
  | None => (s, [])
  end.

(** [disconnect]: the student entry of the socket is deleted, and in every
    chat session the first participant with this socket id is removed.  The
    rooms are notified in the order in which the table lists them. *)
Definition disconnect (sid : string) (s : State) : State * list emission :=
  let students' := obj_delete sid (students s) in
  let has_sid := fun p => String.eqb (p_id p) sid in
  (mkState (currentPoll s) students' (pollResults s) (pastPolls s)
           (pollTimeout s) (chatMessages s)
           (remove_first has_sid <$> chatParticipants s),
   match obj_get sid (students s) with
   | Some _ => [(ToAll, E_student_count_update (length (obj_keys students')))]
   | None => []
   end
   ++ flat_map
        (fun kv =>
           if existsb has_sid (snd kv) then
             [(ToRoom (room_of (fst kv)),
               E_participants_updated (remove_first has_sid (snd kv)))]
           else [])
        (map_to_list (chatParticipants s))).

(** ** The server as a transition system *)

Inductive request :=
  | Join_student (nm : string)
  | Teacher_start_poll (pd : PollData)
  | Submit_answer (ans : string)
  | Get_current_results
  | Teacher_end_poll
  | Kick_student (studentName : string)
  | Get_students
  | Get_past_polls
  | Get_status
  | Join_chat (sessionId user : string)
  | Send_message (sessionId user msg : string) (rnd : Z) (clock : string)
  | Kick_user (sessionId userName : string)
  | Leave_chat (sessionId user : string)
  | Disconnect.

Inductive event :=
  | FromSocket (sid : string) (r : request)
  | TimerFires.

Definition handle (sid : string) (now : Z) (r : request) (s : State)
    : State * list emission :=
  match r with
  | Join_student nm => join_student sid now nm s
  | Teacher_start_poll pd => teacher_start_poll sid now pd s
  | Submit_answer ans => submit_answer sid now ans s
  | Get_current_results => get_current_results sid now s
  | Teacher_end_poll => teacher_end_poll sid now s
  | Kick_student nm => kick_student sid nm s
  | Get_students => get_students sid s
  | Get_past_polls => get_past_polls sid s
  | Get_status => get_status sid now s
  | Join_chat sessionId user => join_chat sid now sessionId user s
  | Send_message sessionId user msg rnd clock =>
      send_message sid now rnd clock sessionId user msg s
  | Kick_user sessionId userName => kick_user sid sessionId userName s
  | Leave_chat sessionId user => leave_chat sid sessionId user s
  | Disconnect => disconnect sid s
  end.

Definition step (now : Z) (e : event) (s : State) : State * list emission :=
  match e with
  | FromSocket sid r => handle sid now r s
  | TimerFires => timer_fires now s
  end.

(** A run: the events are handled one after the other, each at its own clock
    reading; the emissions are collected in order. *)
Fixpoint run (evs : list (Z * event)) (s : State) : State * list emission :=
  match evs with
  | [] => (s, [])
  | (now, e) :: rest =>
      let '(s1, out1) := step now e s in
      let '(s2, out2) := run rest s1 in
      (s2, out1 ++ out2)
  end.

Inductive reachable : State -> Prop :=
  | reachable_initial : reachable initial
  | reachable_step s now e :
      reachable s -> reachable (fst (step now e s)).

(** ** Vocabulary of the statements *)

(** A submission was accepted iff the socket got [answer_submitted]. *)
Definition is_answer_submitted (e : emission) : bool :=
  match snd e with
  | E_answer_submitted _ _ _ => true
  | _ => false
  end.

Definition accepted (out : list emission) : bool :=
  existsb is_answer_submitted out.

Definition is_poll_ended (e : emission) : bool :=
  match e with
  | (ToAll, E_poll_ended _ _ _) => true
  | _ => false
  end.

(** The display names of the roster, [Object.values(students).map(s => s.name)]. *)
Definition names (s : State) : list string :=
  map name (obj_values (students s)).

(** The state is Active when a poll is stored, Idle otherwise. *)
Definition Active (s : State) : Prop := is_Some (currentPoll s).
Definition Idle (s : State) : Prop := currentPoll s = None.

(** Every registered student has answered. *)
Definition all_answered (s : State) : Prop :=
  Forall (fun st => answered st = true) (obj_values (students s)).

(** The keys of a JavaScript object are pairwise different. *)
Definition wf_state (s : State) : Prop := NoDup (obj_keys (students s)).

(** [trimmedName] for counter 1, [`${trimmedName} (${counter})`] after. *)
Definition candidate (trimmedName : string) (counter : nat) : string :=
  match counter with
  | 1%nat => trimmedName
  | _ => trimmedName +:+ " (" +:+ pretty counter +:+ ")"
  end.

(** The number of distinct option strings of a payload after trimming, in
    the words of the specification. *)
Definition distinct_trimmed_options (pd : PollData) : nat :=
  length (remove_dups (map trim (default [] (pd_options pd)))).

(** The question of the payload is absent or the empty string. *)
Definition question_empty (pd : PollData) : Prop :=
  pd_question pd = None \/ pd_question pd = Some "".

(** The number of entries of the payload's [options] (none when absent). *)
Definition option_count (pd : PollData) : nat :=
  length (default [] (pd_options pd)).

(** What the socket receives when the payload is rejected as malformed. *)
Definition validation_error (sid : string) : list emission :=
  [(ToSocket sid, E_poll_error invalid_poll_msg)].

(** What the socket receives when the previous poll is unresolved. *)
Definition conflict_error (sid : string) (n : nat) : list emission :=
  [(ToSocket sid, E_poll_error (still_active_msg n))].

(** What a socket receives when its answer comes too late. *)
Definition expired_error (sid : string) : list emission :=
  [(ToSocket sid, E_answer_error "Poll has expired")].

(** What a socket receives when it has answered already. *)
Definition already_answered_error (sid : string) : list emission :=
  [(ToSocket sid, E_answer_error "You have already answered this poll")].

(** The [duration] values that JavaScript treats as false. *)
Definition falsy (d : duration_field) : Prop :=
  d = DurAbsent \/ d = DurNull \/ d = DurNum 0.

(** Every entry of the roster under key [sid] has answered (none, if the
    socket has no entry). *)
Definition answered_by (sid : string) (s : State) : Prop :=
  forall st, (sid, st) ∈ students s -> answered st = true.

(** The three causes of completion, read off a step: the timer fired, the
    teacher asked for the end, or a submission was accepted which left no
    registered student unanswered ([r] is the record archived by the step). *)
Definition completion_cause (e : event) (out : list emission) (r : PastPoll)
    : Prop :=
  e = TimerFires
  \/ (exists sid, e = FromSocket sid Teacher_end_poll)
  \/ (exists sid ans,
        e = FromSocket sid (Submit_answer ans)
        /\ accepted out = true
        /\ (0 < totalStudents r)%nat
        /\ answeredStudents r = totalStudents r).

(** No [join_student] from socket [sid] among the events. *)
Definition is_join_of (sid : string) (e : Z * event) : bool :=
  match snd e with
  | FromSocket sid' (Join_student _) => String.eqb sid sid'
  | _ => false
  end.

Definition no_rejoin (sid : string) (evs : list (Z * event)) : Prop :=
  forallb (fun e => negb (is_join_of sid e)) evs = true.

(** The messages sent to one chat session during a run, oldest first. *)
Fixpoint sent_to (sessionId : string) (evs : list (Z * event))
    : list ChatMessage :=
  match evs with
  | [] => []
  | (now, FromSocket _ (Send_message k user msg rnd clock)) :: rest =>
      if String.eqb k sessionId
      then mkChatMessage (now, rnd) user msg now clock :: sent_to sessionId rest
      else sent_to sessionId rest
  | _ :: rest => sent_to sessionId rest
  end.

(** ** Scenarios *)

(** The poll of the specification's scenario, and variants of its payload. *)
Definition color_poll (d : duration_field) : PollData :=
  mkPollData (Some "Color?") (Some ["Red"; "Blue"]) d.

Definition one_option_poll : PollData :=
  mkPollData (Some "Color?") (Some ["Red"]) DurAbsent.

Definition same_option_twice_poll : PollData :=
  mkPollData (Some "Color?") (Some ["Red"; " Red "]) DurAbsent.

(** Sam joins on socket [a], then the teacher starts the poll. *)
Definition sam_then_poll : State :=
  fst (run [(0, FromSocket "a" (Join_student "Sam"));
            (1, FromSocket "t" (Teacher_start_poll (color_poll (DurNum 30))))]
           initial).

(** Sam joins on socket [a], then another Sam on socket [b]. *)
Definition two_sams : State :=
  fst (run [(0, FromSocket "a" (Join_student "Sam"));
            (1, FromSocket "b" (Join_student " Sam "))] initial).

(** Sam on socket [a] and Bob on socket [b] are asked the poll. *)
Definition sam_bob_poll : State :=
  fst (run [(0, FromSocket "a" (Join_student "Sam"));
            (1, FromSocket "b" (Join_student "Bob"));
            (2, FromSocket "t" (Teacher_start_poll (color_poll (DurNum 60))))]
           initial).

(** Sam answers, then registers again on the same socket. *)
Definition sam_rejoined : State :=
  fst (run [(4, FromSocket "a" (Join_student "Sam"))]
           (fst (submit_answer "a" 3 "Red" sam_bob_poll))).

(** Sam answers, then Bob's socket disconnects. *)
Definition bob_disconnected : State :=
  fst (run [(3, FromSocket "a" (Submit_answer "Red"));
            (4, FromSocket "b" Disconnect)] sam_bob_poll).

(** Sam answers, then the teacher removes Bob. *)
Definition bob_kicked : State :=
  fst (run [(3, FromSocket "a" (Submit_answer "Red"));
            (4, FromSocket "t" (Kick_student "Bob"))] sam_bob_poll).

(** Ann and Bob write to [room1]; Ann had joined it from socket [a]. *)
Definition room1_events : list (Z * event) :=
  [(0, FromSocket "a" (Join_chat "room1" "Ann"));
   (1, FromSocket "a" (Send_message "room1" "Ann" "hello" 11 "10:00"));
   (2, FromSocket "b" (Send_message "room1" "Bob" "hi" 22 "10:01"))].

Definition room1 : State := fst (run room1_events initial).

(** ** Further vocabulary *)

(** Every character of the string is white space (so is the empty string). *)
Fixpoint all_white_space (s : string) : bool :=
  match s with
  | EmptyString => true
  | String c r => is_white_space c && all_white_space r
  end.

(** What a socket receives when its name is refused. *)
Definition name_required_error (sid : string) : list emission :=
  [(ToSocket sid, E_join_error "Name is required")].

(** What the teacher's socket receives when no student bears the name. *)
Definition kick_error (sid : string) : list emission :=
  [(ToSocket sid, E_kick_error "Student not found")].

(** The event is not a [join_student] from a socket that has an entry. *)
Definition not_a_rejoin (e : event) (s : State) : Prop :=
  forall sid nm,
    e = FromSocket sid (Join_student nm) -> obj_get sid (students s) = None.

(** The tally fits the poll: while a poll is active every option has a
    numeric counter and nothing else is counted; otherwise the tally is
    empty. *)
Definition tally_ok (s : State) : Prop :=
  match currentPoll s with
  | Some p =>
      (forall o, o ∈ options p -> exists n, pollResults s !! o = Some (Num n))
      /\ (forall o, is_Some (pollResults s !! o) -> o ∈ options p)
  | None => pollResults s = ∅
  end.

(** Nobody is marked as having answered. *)
Definition nobody_answered (s : State) : Prop :=
  Forall (fun st => answered st = false) (obj_values (students s)).

(** In every chat session the participant names are pairwise different. *)
Definition chat_names_unique (s : State) : Prop :=
  forall k parts,
    chatParticipants s !! k = Some parts -> NoDup (map p_name parts).

(** The requests of the chat rooms. *)
Definition is_chat_request (r : request) : bool :=
  match r with
  | Join_chat _ _ | Send_message _ _ _ _ _ | Kick_user _ _ | Leave_chat _ _ =>
      true
  | _ => false
  end.


(** The entries of the other sockets, in order. *)
Definition entries_of_others (sid : string) (parts : list ChatParticipant)
    : list ChatParticipant :=
  List.filter (fun p => negb (String.eqb (p_id p) sid)) parts.

(** Ann joins [room1] from socket [a], first as Ann and then as Annie. *)
Definition ann_twice : State :=
  fst (run [(0, FromSocket "a" (Join_chat "room1" "Ann"));
            (1, FromSocket "b" (Join_chat "room1" "Bob"));
            (2, FromSocket "a" (Join_chat "room1" "Annie"))] initial).

(** ** The older server variant

    In [server.js] a student record has no [originalName] and no [tabId],
    and [join_student] overwrites the socket's record unconditionally; its
    [join_success] carries the name only.  The other handlers of that file
    are the ones modelled above. *)

Record StudentV1 := mkStudentV1 {
  v1_name : string;
  v1_answered : bool;
  v1_joinedAt : Z;
  v1_answer : option string;
  v1_answeredAt : option Z
}.

Inductive message_v1 :=
  | V1_join_error (m : string)
  | V1_join_success (nm : string)
  | V1_new_question (p : Poll) (timeRemaining : Z)
  | V1_student_count_update (n : nat).

(** [join_student] of [server.js], on the two variables it touches. *)
Definition join_student_v1 (sid : string) (now : Z) (nm : string)
    (currentPoll : option Poll) (students : list (string * StudentV1))
    : list (string * StudentV1) * list (target * message_v1) :=
  if String.eqb nm "" || String.eqb (trim nm) "" then
    (students, [(ToSocket sid, V1_join_error "Name is required")])
  else
    let students' :=
      obj_set sid (mkStudentV1 (trim nm) false now None None) students in
    (students',
     [(ToSocket sid, V1_join_success (trim nm))]
       ++ match currentPoll with
          | Some p => [(ToSocket sid, V1_new_question p (timeRemaining now p))]
          | None => []
          end
       ++ [(ToAll, V1_student_count_update (length (obj_keys students')))]).

(** * Properties *)

(** ** JavaScript objects *)

Section JsObjectFacts.
Context {V : Type}.
Implicit Types (o : list (string * V)) (k : string) (v : V).

Lemma obj_get_set_eq k v o : obj_get k (obj_set k v o) = Some v.
Proof.
  induction o as [|[k' v'] o IH]; simpl.
  - by rewrite String.eqb_refl.
  - destruct (String.eqb k k') eqn:E; simpl; rewrite ?String.eqb_refl, ?E; done.
Qed.

Lemma obj_get_set_ne k k' v o :
  k <> k' -> obj_get k' (obj_set k v o) = obj_get k' o.
Proof.
  intros Hne. induction o as [|[k0 v0] o IH]; simpl.
  - destruct (String.eqb_spec k' k); congruence.
  - destruct (String.eqb_spec k k0) as [->|]; simpl.
    + destruct (String.eqb_spec k' k0); congruence.
    + destruct (String.eqb_spec k' k0); congruence.
Qed.

Lemma obj_get_delete_ne k k' o :
  k <> k' -> obj_get k' (obj_delete k o) = obj_get k' o.
Proof.
  intros Hne. induction o as [|[k0 v0] o IH]; simpl; [done|].
  destruct (String.eqb_spec k k0) as [->|]; simpl.
  - destruct (String.eqb_spec k' k0); congruence.
  - destruct (String.eqb_spec k' k0); congruence.
Qed.

Lemma obj_get_None k o : obj_get k o = None <-> k ∉ obj_keys o.
Proof.
  induction o as [|[k0 v0] o IH]; simpl.
  - split; [intros _; apply not_elem_of_nil | done].
  - rewrite not_elem_of_cons. destruct (String.eqb_spec k k0); naive_solver.
Qed.

Lemma obj_get_delete_eq k o :
  NoDup (obj_keys o) -> obj_get k (obj_delete k o) = None.
Proof.
  induction o as [|[k0 v0] o IH]; simpl; [done|].
  intros [Hk0 Hnd]%NoDup_cons.
  destruct (String.eqb_spec k k0) as [->|Hne]; simpl.
  - by apply obj_get_None.
  - destruct (String.eqb_spec k k0); [done | auto].
Qed.

Lemma obj_keys_set_Some k v v0 o :
  obj_get k o = Some v0 -> obj_keys (obj_set k v o) = obj_keys o.
Proof.
  induction o as [|[k' v'] o IH]; simpl; [done|].
  destruct (String.eqb_spec k k') as [->|]; simpl; [done|].
  intros H. by rewrite (IH H).
Qed.

Lemma obj_keys_set_None k v o :
  obj_get k o = None -> obj_keys (obj_set k v o) = obj_keys o ++ [k].
Proof.
  induction o as [|[k' v'] o IH]; simpl; [done|].
  destruct (String.eqb_spec k k') as [->|]; simpl; [done|].
  intros H. by rewrite (IH H).
Qed.

Lemma obj_set_NoDup k v o :
  NoDup (obj_keys o) -> NoDup (obj_keys (obj_set k v o)).
Proof.
  intros Hnd. destruct (obj_get k o) as [v0|] eqn:E.
  - by rewrite (obj_keys_set_Some _ _ _ _ E).
  - rewrite (obj_keys_set_None _ _ _ E).
    apply NoDup_app. split; [done|]. split; [|apply NoDup_singleton].
    intros x Hx ->%list_elem_of_singleton. by apply obj_get_None in E.
Qed.

Lemma obj_delete_keys_sub k o x :
  x ∈ obj_keys (obj_delete k o) -> x ∈ obj_keys o.
Proof.
  induction o as [|[k' v'] o IH]; simpl; [done|].
  destruct (String.eqb k k'); simpl.
  - apply list_elem_of_further.
  - rewrite !elem_of_cons. naive_solver.
Qed.

Lemma obj_delete_NoDup k o :
  NoDup (obj_keys o) -> NoDup (obj_keys (obj_delete k o)).
Proof.
  induction o as [|[k' v'] o IH]; simpl; [done|].
  intros [Hk Hnd]%NoDup_cons.
  destruct (String.eqb k k'); simpl; [done|].
  apply NoDup_cons. split; [|auto].
  intros Hin. apply Hk. by eapply obj_delete_keys_sub.
Qed.

Lemma obj_get_elem k v o : obj_get k o = Some v -> (k, v) ∈ o.
Proof.
  induction o as [|[k' v'] o IH]; simpl; [done|].
  destruct (String.eqb_spec k k') as [->|].
  - intros [= ->]. apply list_elem_of_here.
  - intros H. apply list_elem_of_further. auto.
Qed.

(** The values after [o[k] = v] are [v] and values that were there. *)
Lemma obj_set_values_elem k v o x :
  x ∈ obj_values (obj_set k v o) -> x = v \/ x ∈ obj_values o.
Proof.
  induction o as [|[k' v'] o IH]; simpl.
  - intros ->%list_elem_of_singleton. by left.
  - destruct (String.eqb k k'); simpl; rewrite !elem_of_cons; naive_solver.
Qed.
End JsObjectFacts.

(** ** Counting answers *)

Lemma unanswered_count_zero o :
  unanswered_count o = 0%nat <->
  Forall (fun st => answered st = true) (obj_values o).
Proof.
  unfold unanswered_count. induction o as [|[k st] o IH]; simpl.
  - split; [constructor | done].
  - rewrite Forall_cons. destruct (answered st); simpl.
    + rewrite IH. naive_solver.
    + split; [done | intros [? _]; done].
Qed.

Lemma unanswered_count_pos o :
  (0 < unanswered_count o)%nat <->
  Exists (fun st => answered st = false) (obj_values o).
Proof.
  unfold unanswered_count. induction o as [|[k st] o IH]; simpl.
  - rewrite Exists_nil. lia.
  - rewrite Exists_cons. destruct (answered st); simpl.
    + rewrite IH. naive_solver.
    + split; [by left | lia].
Qed.

Lemma answered_count_all o :
  Forall (fun st => answered st = true) (obj_values o) ->
  answered_count o = length (obj_keys o).
Proof.
  unfold answered_count. induction o as [|[k st] o IH]; simpl; [done|].
  intros [-> H]%Forall_cons. simpl. by rewrite IH.
Qed.

Lemma forallb_answered o :
  forallb answered (obj_values o) = true <->
  Forall (fun st => answered st = true) (obj_values o).
Proof.
  induction o as [|[k st] o IH]; simpl.
  - split; [constructor | done].
  - rewrite Forall_cons, andb_true_iff, IH. done.
Qed.

(** ** Completing a poll *)

Lemma resetPoll_idle now s : currentPoll (resetPoll now s) = None.
Proof. done. Qed.

Lemma endPoll_idle now s : currentPoll (fst (endPoll now s)) = None.
Proof. unfold endPoll. by destruct (currentPoll s) eqn:E. Qed.

Lemma endPoll_disarms now s :
  is_Some (currentPoll s) -> pollTimeout (fst (endPoll now s)) = None.
Proof. intros [p E]. unfold endPoll. by rewrite E. Qed.

Lemma endPoll_active now s p :
  currentPoll s = Some p ->
  endPoll now s =
    (resetPoll now s,
     [(ToAll, E_poll_ended (pollResults s) (question p) (options p))]).
Proof. intros E. unfold endPoll. by rewrite E. Qed.

Lemma resetPoll_pastPolls_active now s p :
  currentPoll s = Some p ->
  pastPolls (resetPoll now s) =
    pastPolls s ++ [mkPastPoll p (pollResults s) now
                      (length (obj_keys (students s)))
                      (answered_count (students s))].
Proof. intros E. unfold resetPoll. simpl. by rewrite E. Qed.

(** C8. [endPoll] called while no poll is active changes nothing, emits
    nothing and archives nothing; the state left by any completion is such
    a state, so there a later timer callback finds nothing to end, and an
    explicit end request leaves the state as it is and is answered with
    [no_active_poll] only: no second archive record and no second
    [poll_ended] for the same poll. *)
Theorem endPoll_idle_noop (now : Z) (s : State) :
  (Idle s ->
     endPoll now s = (s, [])
     /\ timer_fires now s = (s, [])
     /\ forall sid,
          teacher_end_poll sid now s = (s, [(ToSocket sid, E_no_active_poll)]))
  /\ (forall now0 s0,
        s = fst (endPoll now0 s0) ->
        endPoll now s = (s, [])
        /\ timer_fires now s = (s, [])
        /\ (forall sid,
              teacher_end_poll sid now s =
                (s, [(ToSocket sid, E_no_active_poll)]))
        /\ pastPolls (fst (endPoll now s)) = pastPolls s).
Proof.
  assert (Hidle : forall t, Idle t ->
            endPoll now t = (t, [])
            /\ timer_fires now t = (t, [])
            /\ forall sid,
                 teacher_end_poll sid now t =
                   (t, [(ToSocket sid, E_no_active_poll)])).
  { intros t Ht. unfold Idle in Ht.
    assert (E : endPoll now t = (t, [])) by (unfold endPoll; by rewrite Ht).
    split; [done|]. split.
    - unfold timer_fires. by destruct (pollTimeout t).
    - intros sid. unfold teacher_end_poll. by rewrite Ht. }
  split; [apply Hidle|].
  intros now0 s0 ->.
  destruct (Hidle (fst (endPoll now0 s0)) (endPoll_idle now0 s0))
    as (H1 & H2 & H3).
  repeat split; try done. by rewrite H1.
Qed.

Lemma endPoll_idle_noop_witness :
  endPoll 9 (fst (endPoll 8 sam_then_poll)) = (fst (endPoll 8 sam_then_poll), [])
  /\ endPoll 9 initial = (initial, []).
Proof.
  split.
  - exact (proj1 (proj2 (endPoll_idle_noop 9 (fst (endPoll 8 sam_then_poll)))
                    8 sam_then_poll eq_refl)).
  - exact (proj1 (proj1 (endPoll_idle_noop 9 initial) eq_refl)).
Defined.

(** ** Starting a poll *)

Lemma invalid_poll_data_spec pd :
  invalid_poll_data pd = true <->
  question_empty pd \/ (option_count pd < 2)%nat.
Proof.
  unfold invalid_poll_data, question_empty, option_count.
  destruct pd as [[q|] [opts|] d]; simpl.
  - rewrite orb_true_iff, String.eqb_eq, Nat.ltb_lt.
    split; [intros [->|?]; [left; by right | by right]|].
    intros [[?|[= ->]]|?]; [done | by left | by right].
  - split; [intros _; right; lia | done].
  - split; [intros _; left; by left | done].
  - split; [intros _; left; by left | done].
Qed.

Lemma remove_dups_length (l : list string) :
  (length (remove_dups l) <= length l)%nat.
Proof.
  induction l as [|x l IH]; simpl; [done|].
  destruct (decide_rel elem_of x l); simpl; lia.
Qed.

Lemma option_count_distinct pd :
  (distinct_trimmed_options pd <= option_count pd)%nat.
Proof.
  unfold distinct_trimmed_options, option_count.
  etrans; [apply remove_dups_length|]. by rewrite length_map.
Qed.

Lemma still_active_msg_not_invalid n : still_active_msg n <> invalid_poll_msg.
Proof. unfold still_active_msg, invalid_poll_msg. simpl. discriminate. Qed.

(** The state and the emissions of a start that passes both checks. *)
Lemma teacher_start_poll_success sid now pd s :
  invalid_poll_data pd = false ->
  (currentPoll s = None \/ unanswered_count (students s) = 0%nat) ->
  let p := mkPoll (trim (default "" (pd_question pd)))
                  (map trim (default [] (pd_options pd)))
                  (duration_or_default (pd_duration pd)) now "teacher" in
  teacher_start_poll sid now pd s =
    (mkState (Some p)
             (reset_answered (reset_answered (students s)))
             (init_results (options p))
             (pastPolls (resetPoll now s))
             (Some (duration p * 1000))
             (chatMessages s) (chatParticipants s),
     [(ToAll, E_new_question p None); (ToSocket sid, E_poll_started p)]).
Proof.
  intros Hv Hc. unfold teacher_start_poll. rewrite Hv.
  destruct Hc as [Hc|Hc]; rewrite Hc; simpl; [done|].
  by rewrite andb_false_r.
Qed.

(** C2, as stated, fails: a payload whose two options are equal after
    trimming has one distinct trimmed option, and yet it is not rejected;
    the poll is created with the option listed twice. *)
Lemma start_accepts_duplicate_options :
  (distinct_trimmed_options same_option_twice_poll < 2)%nat
  /\ snd (teacher_start_poll "t" 0 same_option_twice_poll initial)
     <> validation_error "t"
  /\ options <$>
       currentPoll (fst (teacher_start_poll "t" 0 same_option_twice_poll initial))
     = Some ["Red"; "Red"].
Proof.
  split; [vm_compute; lia|]. split; [|reflexivity].
  intros H. vm_compute in H. discriminate H.
Qed.

(** C2, amended.  [teacher_start_poll] answers with the validation error and
    leaves the state as it is exactly when the question is absent or the
    empty string, or the payload has fewer than 2 option entries (entries are
    counted as sent: before trimming, duplicates included).  Every other
    payload passes validation; in particular every payload with a non-empty
    question and at least 2 distinct trimmed options does. *)
Theorem start_validation (sid : string) (now : Z) (pd : PollData) (s : State) :
  (question_empty pd \/ (option_count pd < 2)%nat ->
     teacher_start_poll sid now pd s = (s, validation_error sid))
  /\ (~ question_empty pd -> (2 <= option_count pd)%nat ->
     snd (teacher_start_poll sid now pd s) <> validation_error sid)
  /\ (~ question_empty pd -> (2 <= distinct_trimmed_options pd)%nat ->
     snd (teacher_start_poll sid now pd s) <> validation_error sid).
Proof.
  assert (Hpass : ~ question_empty pd -> (2 <= option_count pd)%nat ->
            snd (teacher_start_poll sid now pd s) <> validation_error sid).
  { intros Hq Hn.
    assert (Hv : invalid_poll_data pd = false).
    { destruct (invalid_poll_data pd) eqn:E; [|done].
      apply invalid_poll_data_spec in E as [?|?]; [done | lia]. }
    unfold teacher_start_poll, validation_error. rewrite Hv.
    destruct (_ && _); simpl; [|discriminate].
    intros H. apply (still_active_msg_not_invalid (unanswered_count (students s))).
    congruence. }
  split; [|split; [done|]].
  - intros H%invalid_poll_data_spec.
    unfold teacher_start_poll. by rewrite H.
  - intros Hq Hn. apply Hpass; [done|].
    pose proof (option_count_distinct pd). lia.
Qed.

Lemma start_validation_witness :
  teacher_start_poll "t" 5 one_option_poll initial
    = (initial, validation_error "t")
  /\ snd (teacher_start_poll "t" 5 (color_poll DurAbsent) initial)
     <> validation_error "t".
Proof.
  split.
  - apply (proj1 (start_validation "t" 5 one_option_poll initial)).
    right. vm_compute. lia.
  - apply (proj2 (proj2 (start_validation "t" 5 (color_poll DurAbsent) initial))).
    + intros [H|H]; discriminate H.
    + vm_compute. lia.
Defined.

(** C3.  For a payload that passes validation: while a poll is active and
    some registered student has not answered, [teacher_start_poll] answers
    with the conflict error, which carries the number of students who have
    not answered, and leaves the state as it is; when no poll is active, or
    every registered student has answered, it succeeds, and a poll that was
    active is archived first: the history the new poll starts with is the
    one [resetPoll] leaves, the old history followed by the record of the
    old poll with its tally. *)
Theorem start_conflict (sid : string) (now : Z) (pd : PollData) (s : State) :
  invalid_poll_data pd = false ->
  (Active s ->
   Exists (fun st => answered st = false) (obj_values (students s)) ->
     (0 < unanswered_count (students s))%nat
     /\ teacher_start_poll sid now pd s =
          (s, conflict_error sid (unanswered_count (students s))))
  /\ (Idle s \/ all_answered s ->
      exists p',
        snd (teacher_start_poll sid now pd s) =
          [(ToAll, E_new_question p' None); (ToSocket sid, E_poll_started p')]
        /\ currentPoll (fst (teacher_start_poll sid now pd s)) = Some p'
        /\ pastPolls (fst (teacher_start_poll sid now pd s)) =
             pastPolls (resetPoll now s)
        /\ (forall p, currentPoll s = Some p ->
              pastPolls (fst (teacher_start_poll sid now pd s)) =
                pastPolls s ++
                  [mkPastPoll p (pollResults s) now
                     (length (obj_keys (students s)))
                     (answered_count (students s))])
        /\ (Idle s ->
              pastPolls (fst (teacher_start_poll sid now pd s)) = pastPolls s)).
Proof.
  intros Hv. split.
  - intros [p Hp] Hex%unanswered_count_pos. split; [done|].
    unfold teacher_start_poll, conflict_error. rewrite Hv, Hp. simpl.
    by apply Nat.ltb_lt in Hex as ->.
  - intros Hc.
    assert (Hc' : currentPoll s = None \/ unanswered_count (students s) = 0%nat).
    { destruct Hc as [?|?%unanswered_count_zero]; [by left | by right]. }
    rewrite (teacher_start_poll_success sid now pd s Hv Hc'). simpl.
    eexists. repeat split.
    + intros p Hp. by apply resetPoll_pastPolls_active.
    + unfold Idle. by intros ->.
Qed.

Lemma start_conflict_witness :
  teacher_start_poll "t" 2 (color_poll DurAbsent) sam_then_poll
    = (sam_then_poll, conflict_error "t" 1).
Proof.
  refine (proj2 (proj1 (start_conflict "t" 2 (color_poll DurAbsent)
                          sam_then_poll _) _ _)).
  - reflexivity.
  - vm_compute. eauto.
  - vm_compute. apply Exists_cons_hd. reflexivity.
Defined.

(** ** The duration of a poll *)

Lemma duration_or_default_falsy d : falsy d -> duration_or_default d = 60.
Proof. by intros [->|[->| ->]]. Qed.

Lemma duration_or_default_nonzero d : duration_or_default d <> 0.
Proof.
  destruct d as [| |n]; simpl; [done|done|].
  destruct (Z.eqb_spec n 0); [done | done].
Qed.

(** What [teacher_start_poll] does when it reports [poll_started]. *)
Lemma teacher_start_poll_started sid now pd s p :
  (ToSocket sid, E_poll_started p) ∈ snd (teacher_start_poll sid now pd s) ->
  p = mkPoll (trim (default "" (pd_question pd)))
             (map trim (default [] (pd_options pd)))
             (duration_or_default (pd_duration pd)) now "teacher"
  /\ currentPoll (fst (teacher_start_poll sid now pd s)) = Some p
  /\ pollTimeout (fst (teacher_start_poll sid now pd s)) =
       Some (duration p * 1000).
Proof.
  unfold teacher_start_poll.
  destruct (invalid_poll_data pd); simpl.
  { intros [=]%list_elem_of_singleton. }
  destruct (_ && _); simpl.
  { intros [=]%list_elem_of_singleton. }
  rewrite elem_of_cons, list_elem_of_singleton.
  intros [[=]|[= ->]]. done.
Qed.

(** The expiry test of [submit_answer]: an answer is refused as expired
    only when more than [duration * 1000] ms have passed, and then it is
    never accepted. *)
Lemma submit_answer_expiry sid now ans s p :
  currentPoll s = Some p ->
  (snd (submit_answer sid now ans s) = expired_error sid ->
     now - startTime p > duration p * 1000)
  /\ (now - startTime p > duration p * 1000 ->
     accepted (snd (submit_answer sid now ans s)) = false).
Proof.
  intros Hp. unfold submit_answer, expired_error. rewrite Hp.
  destruct (obj_get sid (students s)) as [st|]; simpl.
  2: { split; [discriminate | done]. }
  destruct (answered st); simpl.
  { split; [discriminate | done]. }
  destruct (includes ans (options p)); simpl.
  2: { split; [discriminate | done]. }
  destruct (Z.gtb_spec (now - startTime p) (duration p * 1000)).
  { split; [lia | done]. }
  split; [|lia].
  destruct (_ && _); simpl; discriminate.
Qed.

(** C10.  A payload whose [duration] is 0, [null] or absent is handled
    exactly like the payload without the field.  The poll it creates has a
    duration of 60 seconds; the timer is armed for 60000 ms, the remaining
    time is counted from 60000 ms, and an answer is refused as expired only
    after more than 60000 ms.  No payload creates a poll of duration 0.  (The
    older server variant has the same handler.) *)
Theorem zero_duration_is_default (sid : string) (now : Z) (pd : PollData)
    (s : State) :
  (falsy (pd_duration pd) ->
     teacher_start_poll sid now pd s =
       teacher_start_poll sid now
         (mkPollData (pd_question pd) (pd_options pd) DurAbsent) s
     /\ forall p,
          (ToSocket sid, E_poll_started p)
            ∈ snd (teacher_start_poll sid now pd s) ->
          let s' := fst (teacher_start_poll sid now pd s) in
          duration p = 60
          /\ currentPoll s' = Some p
          /\ pollTimeout s' = Some 60000
          /\ (forall now', timeRemaining now' p = Z.max 0 (now + 60000 - now'))
          /\ (forall sid' now' ans,
                (snd (submit_answer sid' now' ans s') = expired_error sid' ->
                   now' - now > 60000)
                /\ (now' - now > 60000 ->
                   accepted (snd (submit_answer sid' now' ans s')) = false)))
  /\ (forall p,
        (ToSocket sid, E_poll_started p)
          ∈ snd (teacher_start_poll sid now pd s) ->
        duration p <> 0).
Proof.
  split.
  - intros Hf. split.
    + unfold teacher_start_poll. simpl.
      rewrite (duration_or_default_falsy _ Hf).
      by destruct pd as [[q|] [opts|] d].
    + intros p (-> & Hcur & Htimer)%teacher_start_poll_started. simpl in *.
      rewrite (duration_or_default_falsy _ Hf) in *.
      repeat split; try done.
      * pose proof (submit_answer_expiry sid' now' ans _ _ Hcur) as [H _].
        simpl in H. intros Hx. specialize (H Hx). lia.
      * pose proof (submit_answer_expiry sid' now' ans _ _ Hcur) as [_ H].
        simpl in H. intros Hx. apply H. lia.
  - intros p (-> & _)%teacher_start_poll_started. simpl.
    apply duration_or_default_nonzero.
Qed.

Lemma zero_duration_is_default_witness :
  teacher_start_poll "t" 7 (color_poll (DurNum 0)) initial =
    teacher_start_poll "t" 7 (color_poll DurAbsent) initial
  /\ pollTimeout (fst (teacher_start_poll "t" 7 (color_poll (DurNum 0)) initial))
     = Some 60000.
Proof.
  pose proof (proj1 (zero_duration_is_default "t" 7 (color_poll (DurNum 0)) initial))
    as H.
  destruct H as [H1 H2]; [right; right; reflexivity|].
  split; [exact H1|].
  refine (proj1 (proj2 (proj2 (H2 _ _)))).
  vm_compute. apply list_elem_of_further, list_elem_of_here.
Defined.

(** ** The last answer *)

Lemma obj_set_all_answered sid v v0 (o : list (string * Student)) :
  NoDup (obj_keys o) ->
  obj_get sid o = Some v0 ->
  (forall k st, (k, st) ∈ o -> k <> sid -> answered st = true) ->
  answered v = true ->
  Forall (fun st => answered st = true) (obj_values (obj_set sid v o)).
Proof.
  induction o as [|[k' v'] o IH]; simpl; [done|].
  intros [Hk Hnd]%NoDup_cons Hget Hothers Hv.
  destruct (String.eqb_spec sid k') as [->|Hne]; simpl.
  - apply Forall_cons. split; [done|].
    apply Forall_forall. intros x Hx.
    apply list_elem_of_fmap in Hx as [[k st] [-> Hin]]. simpl.
    apply (Hothers k st); [by apply list_elem_of_further|].
    intros ->. apply Hk. apply list_elem_of_fmap. by exists (k', st).
  - apply Forall_cons. split.
    + apply (Hothers k' v'); [apply list_elem_of_here | done].
    + apply IH; try done.
      intros k st Hin. apply Hothers. by apply list_elem_of_further.
Qed.

Lemma obj_get_Some_keys {V} sid (v : V) o :
  obj_get sid o = Some v -> (0 < length (obj_keys o))%nat.
Proof. destruct o; simpl; [done | lia]. Qed.

(** C4.  When a submission is accepted (a poll is active, the socket is a
    registered student who has not answered, the option is one of the
    poll's, the poll has not expired) and every other registered student has
    answered already, the poll is completed in the same step:
    [answer_submitted] and [live_results] are followed by the [poll_ended]
    broadcast, the state is Idle (so [get_status] reports no active poll),
    and the history has grown by exactly one record, in which
    [answeredStudents] equals [totalStudents]. *)
Theorem last_answer_completes (sid : string) (now : Z) (ans : string)
    (s : State) (p : Poll) (st : Student) :
  wf_state s ->
  currentPoll s = Some p ->
  obj_get sid (students s) = Some st ->
  answered st = false ->
  includes ans (options p) = true ->
  now - startTime p <= duration p * 1000 ->
  (forall k st', (k, st') ∈ students s -> k <> sid -> answered st' = true) ->
  accepted (snd (submit_answer sid now ans s)) = true
  /\ (exists out,
        snd (submit_answer sid now ans s) =
          out ++ [(ToAll, E_poll_ended (increment ans (pollResults s))
                            (question p) (options p))])
  /\ Idle (fst (submit_answer sid now ans s))
  /\ (forall sid' now',
        exists n m,
          snd (get_status sid' now' (fst (submit_answer sid now ans s))) =
            [(ToSocket sid', E_server_status n None m)])
  /\ (exists r,
        pastPolls (fst (submit_answer sid now ans s)) = pastPolls s ++ [r]
        /\ poll r = p
        /\ results r = increment ans (pollResults s)
        /\ (0 < totalStudents r)%nat
        /\ answeredStudents r = totalStudents r).
Proof.
  intros Hwf Hp Hget Hans Hopt Htime Hothers.
  set (st' := mkStudent (name st) (originalName st) true (joinedAt st)
                        (tabId st) (Some ans) (Some now)).
  assert (Hall : Forall (fun x => answered x = true)
                   (obj_values (obj_set sid st' (students s)))).
  { by eapply obj_set_all_answered. }
  assert (Hkeys : obj_keys (obj_set sid st' (students s)) =
                  obj_keys (students s)).
  { by eapply obj_keys_set_Some. }
  assert (Hlen : (0 < length (obj_keys (students s)))%nat).
  { by eapply obj_get_Some_keys. }
  unfold submit_answer. rewrite Hp, Hget, Hans, Hopt. simpl.
  destruct (Z.gtb_spec (now - startTime p) (duration p * 1000)); [lia|].
  fold st'. rewrite (proj2 (forallb_answered _) Hall), Hkeys.
  apply Nat.ltb_lt in Hlen as Hlen'. rewrite Hlen'. simpl.
  split; [done|]. split; [by eexists [_; _]|]. split; [done|].
  split; [by eexists _, _|].
  eexists. split; [done|]. simpl.
  repeat split; [by rewrite Hkeys | by apply answered_count_all].
Qed.

Lemma last_answer_completes_witness :
  Idle (fst (submit_answer "a" 5 "Red" sam_then_poll))
  /\ length (pastPolls (fst (submit_answer "a" 5 "Red" sam_then_poll))) = 1%nat.
Proof.
  assert (Hget : obj_get "a" (students sam_then_poll) =
                 Some (mkStudent "Sam" "Sam" false 0 "a" None None))
    by reflexivity.
  assert (Hp : currentPoll sam_then_poll =
               Some (mkPoll "Color?" ["Red"; "Blue"] 30 1 "teacher"))
    by reflexivity.
  assert (Hwf : wf_state sam_then_poll).
  { vm_compute. apply NoDup_singleton. }
  assert (Hothers : forall k st', (k, st') ∈ students sam_then_poll ->
                      k <> "a" -> answered st' = true).
  { intros k st' Hin Hne. vm_compute in Hin.
    apply list_elem_of_singleton in Hin. congruence. }
  destruct (last_answer_completes "a" 5 "Red" sam_then_poll _ _
              Hwf Hp Hget eq_refl eq_refl ltac:(simpl; lia) Hothers)
    as (_ & _ & Hidle & _ & r & Hr & _).
  split; [exact Hidle|]. rewrite Hr. reflexivity.
Defined.

(** ** Chat rooms *)

Ltac unfold_handlers :=
  unfold step, handle, join_student, teacher_start_poll, submit_answer,
    get_current_results, teacher_end_poll, kick_student, get_students,
    get_past_polls, get_status, join_chat, send_message, kick_user,
    leave_chat, disconnect, timer_fires, endPoll, resetPoll.

Ltac destruct_request r :=
  destruct r as [nm|pd|ans| | |nm| | | |k' user|k' user msg rnd clock
                |k' user|k' user| ].

(** Only [send-message] changes what a session's log holds. *)
Lemma step_chatMessages now e s k :
  default [] (chatMessages (fst (step now e s)) !! k) =
  default [] (chatMessages s !! k) ++ sent_to k [(now, e)].
Proof.
  destruct e as [sid r|]; [destruct_request r|]; simpl.
  all: try (unfold_handlers; repeat (simpl; case_match); simplify_eq/=;
            by rewrite app_nil_r).
  - (* join-chat *)
    unfold join_chat; simpl. rewrite app_nil_r.
    destruct (decide (k' = k)) as [->|Hne].
    + rewrite lookup_insert_eq. done.
    + by rewrite lookup_insert_ne.
  - (* send-message *)
    unfold send_message; simpl.
    destruct (String.eqb_spec k' k) as [->|Hne].
    + by rewrite lookup_insert_eq.
    + rewrite lookup_insert_ne by done. by rewrite app_nil_r.
Qed.

Lemma run_app evs1 evs2 s :
  run (evs1 ++ evs2) s =
    (fst (run evs2 (fst (run evs1 s))),
     snd (run evs1 s) ++ snd (run evs2 (fst (run evs1 s)))).
Proof.
  revert s. induction evs1 as [|[now e] evs1 IH]; intros s; simpl.
  - by destruct (run evs2 s).
  - destruct (step now e s) as [s1 out1] eqn:E1. rewrite IH.
    destruct (run evs1 s1) as [s2 out2]. simpl. by rewrite app_assoc.
Qed.

Lemma sent_to_app k evs1 evs2 :
  sent_to k (evs1 ++ evs2) = sent_to k evs1 ++ sent_to k evs2.
Proof.
  induction evs1 as [|[now e] evs1 IH]; simpl; [done|].
  destruct e as [sid r|]; [destruct_request r|]; try done.
  destruct (String.eqb k' k); simpl; by rewrite IH.
Qed.

Lemma run_chatMessages evs s k :
  default [] (chatMessages (fst (run evs s)) !! k) =
  default [] (chatMessages s !! k) ++ sent_to k evs.
Proof.
  revert s. induction evs as [|[now e] evs IH]; intros s.
  - simpl. by rewrite app_nil_r.
  - change ((now, e) :: evs) with ([(now, e)] ++ evs).
    rewrite run_app, sent_to_app. simpl fst at 1. rewrite IH.
    simpl. destruct (step now e s) as [s1 out1] eqn:E. simpl.
    pose proof (step_chatMessages now e s k) as H. rewrite E in H. simpl in H.
    by rewrite H, app_assoc.
Qed.

Lemma find_name_Some user (parts : list ChatParticipant) :
  user ∈ map p_name parts ->
  is_Some (List.find (fun p => String.eqb (p_name p) user) parts).
Proof.
  induction parts as [|q parts IH]; simpl.
  - by intros ?%elem_of_nil.
  - destruct (String.eqb_spec (p_name q) user); [eauto|].
    rewrite elem_of_cons. intros [?|?]; [congruence | auto].
Qed.

Lemma find_name_None user (parts : list ChatParticipant) :
  user ∉ map p_name parts ->
  List.find (fun p => String.eqb (p_name p) user) parts = None.
Proof.
  induction parts as [|q parts IH]; simpl; [done|].
  rewrite not_elem_of_cons. intros [Hne Hnin].
  destruct (String.eqb_spec (p_name q) user); [congruence | auto].
Qed.

(** C9.  [join-chat] is idempotent in the participant name.  If a
    participant of that name is already listed in the session, the list is
    left exactly as it was: no entry is added and the stored socket id of the
    existing entry is kept, whichever socket sends the join.  Otherwise one
    entry is appended.  Joining again under the same name, from any socket
    and at any time, changes nothing more.  Every join sends the joiner the
    whole log of the session, and along any run from the initial state that
    log is the sequence of the messages sent to the session, oldest first. *)
Theorem join_chat_by_name (sid : string) (now : Z) (sessionId user : string)
    (s : State) :
  let parts := default [] (chatParticipants s !! sessionId) in
  let msgs := default [] (chatMessages s !! sessionId) in
  let s' := fst (join_chat sid now sessionId user s) in
  (user ∈ map p_name parts -> chatParticipants s' !! sessionId = Some parts)
  /\ (user ∉ map p_name parts ->
      chatParticipants s' !! sessionId =
        Some (parts ++ [mkChatParticipant sid user now]))
  /\ (forall sid2 now2, fst (join_chat sid2 now2 sessionId user s') = s')
  /\ snd (join_chat sid now sessionId user s) =
       [(ToSocket sid, E_chat_history msgs);
        (ToRoom (room_of sessionId),
         E_participants_updated
           (default [] (chatParticipants s' !! sessionId)))]
  /\ default [] (chatMessages s' !! sessionId) = msgs
  /\ (forall evs, s = fst (run evs initial) -> msgs = sent_to sessionId evs).
Proof.
  intros parts msgs s'. subst s'. unfold join_chat. simpl.
  fold parts. fold msgs. rewrite !lookup_insert_eq. simpl.
  split; [|split; [|split; [|split; [|split]]]].
  - intros [q Hq]%find_name_Some. by rewrite Hq.
  - intros Hq%find_name_None. by rewrite Hq.
  - intros sid2 now2.
    assert (Hfind : is_Some (List.find (fun p => String.eqb (p_name p) user)
              match List.find (fun p => String.eqb (p_name p) user) parts with
              | Some _ => parts
              | None => parts ++ [mkChatParticipant sid user now]
              end)).
    { destruct (List.find _ parts) eqn:E; [by rewrite E|].
      apply find_name_Some. rewrite map_app. apply elem_of_app. right.
      simpl. apply list_elem_of_here. }
    destruct Hfind as [q Hq]. rewrite Hq.
    by rewrite !insert_insert_eq.
  - done.
  - done.
  - intros evs ->. subst msgs. by rewrite run_chatMessages.
Qed.

Lemma join_chat_by_name_witness :
  chatParticipants (fst (join_chat "c" 9 "room1" "Ann" room1)) !! "room1"
    = Some [mkChatParticipant "a" "Ann" 0]
  /\ default [] (chatMessages room1 !! "room1")
     = [mkChatMessage (1, 11) "Ann" "hello" 1 "10:00";
        mkChatMessage (2, 22) "Bob" "hi" 2 "10:01"].
Proof.
  destruct (join_chat_by_name "c" 9 "room1" "Ann" room1)
    as (H1 & _ & _ & _ & _ & H6).
  split.
  - rewrite H1; [reflexivity|]. vm_compute. apply list_elem_of_here.
  - rewrite (H6 room1_events); reflexivity.
Defined.

(** ** Joining *)

Lemma trim_nonempty nm :
  trim nm <> "" -> String.eqb nm "" || String.eqb (trim nm) "" = false.
Proof.
  intros H. apply orb_false_iff. split.
  - destruct (String.eqb_spec nm "") as [->|]; [by destruct H | done].
  - by destruct (String.eqb_spec (trim nm) "").
Qed.

(** C7, as stated, fails.  The student on socket [b] was registered as
    "Sam (2)" with original name "Sam".  After re-joining as "Ann" the entry
    still has the original name "Sam", and [join_success] carries the new
    name "Ann", not the name resolved before. *)
Lemma rejoin_keeps_original_name :
  obj_get "b" (students two_sams)
    = Some (mkStudent "Sam (2)" "Sam" false 1 "b" None None)
  /\ obj_get "b" (students (fst (join_student "b" 5 "Ann" two_sams)))
     = Some (mkStudent "Ann" "Sam" false 5 "b" None None)
  /\ snd (join_student "b" 5 "Ann" two_sams)
     = [(ToSocket "b", E_join_success "Ann" "Sam" None);
        (ToAll, E_student_count_update 2)].
Proof. repeat split; reflexivity. Qed.

(** C7, amended.  When the socket already has a student entry and the
    requested name is not empty after trimming, [join_student] updates that
    entry in place: the display name becomes the trimmed requested name,
    whether or not another student bears it (no collision check), [answered]
    becomes false and [joinedAt] the current time, while the original name
    and the other fields stay as they were.  No entry is added, no other
    entry is touched.  The reply [join_success] carries the new display
    name, the stored original name and no "modified" note. *)
Theorem rejoin_in_place (sid : string) (now : Z) (nm : string) (s : State)
    (st : Student) :
  obj_get sid (students s) = Some st ->
  trim nm <> "" ->
  obj_get sid (students (fst (join_student sid now nm s)))
    = Some (mkStudent (trim nm) (originalName st) false now (tabId st)
                      (answer st) (answeredAt st))
  /\ obj_keys (students (fst (join_student sid now nm s)))
     = obj_keys (students s)
  /\ (forall k, k <> sid ->
        obj_get k (students (fst (join_student sid now nm s)))
          = obj_get k (students s))
  /\ (exists rest,
        snd (join_student sid now nm s) =
          (ToSocket sid,
           E_join_success (trim nm)
             (if String.eqb (originalName st) "" then trim nm
              else originalName st)
             None) :: rest).
Proof.
  intros Hget Hnm. unfold join_student.
  rewrite (trim_nonempty _ Hnm), Hget. simpl.
  split; [apply obj_get_set_eq|].
  split; [by eapply obj_keys_set_Some|].
  split; [intros k Hk; by apply obj_get_set_ne|].
  unfold join_success_of. simpl. rewrite String.eqb_refl. by eexists.
Qed.

Lemma rejoin_in_place_witness :
  obj_get "b" (students (fst (join_student "b" 5 "Sam" two_sams)))
    = Some (mkStudent "Sam" "Sam" false 5 "b" None None)
  /\ names (fst (join_student "b" 5 "Sam" two_sams)) = ["Sam"; "Sam"].
Proof.
  split; [|reflexivity].
  refine (proj1 (rejoin_in_place "b" 5 "Sam" two_sams
                   (mkStudent "Sam (2)" "Sam" false 1 "b" None None) _ _)).
  - reflexivity.
  - vm_compute. discriminate.
Defined.

(** *** Fresh names *)

Lemma includes_spec x l : includes x l = true <-> x ∈ l.
Proof.
  unfold includes. induction l as [|y l IH]; simpl.
  - split; [done | by intros ?%elem_of_nil].
  - rewrite orb_true_iff, elem_of_cons, IH, String.eqb_eq. done.
Qed.

Lemma append_paren_inj a b : a +:+ ")" = b +:+ ")" -> a = b.
Proof.
  revert b. induction a as [|c a IH]; intros [|d b]; simpl; try done.
  - intros [= <- H]. by destruct b.
  - intros [= -> H]. by destruct a.
  - intros [= -> H]. f_equal. auto.
Qed.

Lemma append_length a b : String.length (a +:+ b) = (String.length a + String.length b)%nat.
Proof. induction a; simpl; [done | by f_equal]. Qed.

Lemma candidate_suffix n k :
  k <> 1%nat -> candidate n k = n +:+ " (" +:+ pretty k +:+ ")".
Proof. destruct k as [|[|k]]; done. Qed.

Lemma candidate_inj n : Inj (=) (=) (candidate n).
Proof.
  assert (Hlen : forall k, k <> 1%nat -> candidate n k <> n).
  { intros k Hk E. rewrite candidate_suffix in E by done.
    apply (f_equal String.length) in E. rewrite append_length in E.
    simpl in E. lia. }
  intros j k E.
  destruct (decide (j = 1%nat)) as [->|Hj];
    destruct (decide (k = 1%nat)) as [->|Hk]; try done.
  - simpl in E. symmetry in E. by apply Hlen in E.
  - simpl in E. by apply Hlen in E.
  - rewrite !candidate_suffix in E by done.
    apply String.app_inj, String.app_inj, append_paren_inj in E.
    by apply (inj pretty) in E.
Qed.

(** Among the first [S (length ex)] candidates one is not in [ex]. *)
Lemma candidate_free_exists n (ex : list string) :
  exists k, (1 <= k < 1 + S (length ex))%nat /\ candidate n k ∉ ex.
Proof.
  set (cands := candidate n <$> seq 1 (S (length ex))).
  destruct (decide (Forall (fun c => c ∈ ex) cands)) as [Hall|Hnot].
  - exfalso.
    assert (Hnd : NoDup cands).
    { pose proof (candidate_inj n) as Hinj.
      apply (NoDup_fmap_2 (candidate n)), NoDup_seq. }
    pose proof (submseteq_length _ _
      (NoDup_submseteq _ _ Hnd (proj1 (Forall_forall _ _) Hall))) as Hle.
    unfold cands in Hle. rewrite length_fmap, length_seq in Hle. lia.
  - apply not_Forall_Exists in Hnot; [|apply _].
    apply Exists_exists in Hnot as (c & Hc & Hfree).
    apply list_elem_of_fmap in Hc as (k & -> & Hk).
    apply elem_of_seq in Hk. exists k. split; [lia | done].
Qed.

(** The loop stops at the least counter whose candidate is free. *)
Lemma unique_name_loop_least fuel (ex : list string) n c :
  (1 <= c)%nat ->
  (exists k, (c <= k < c + fuel)%nat /\ candidate n k ∉ ex) ->
  exists k,
    (c <= k)%nat
    /\ unique_name_loop fuel ex n c (candidate n c) = candidate n k
    /\ (candidate n k ∉ ex)
    /\ forall j, (c <= j < k)%nat -> candidate n j ∈ ex.
Proof.
  revert c. induction fuel as [|fuel IH]; intros c Hc (k & Hk & Hfree).
  { lia. }
  simpl. destruct (includes (candidate n c) ex) eqn:Hin.
  - apply includes_spec in Hin.
    assert (Hkc : k <> c) by (intros ->; done).
    destruct (IH (S c)) as (k' & Hk' & Hres & Hfree' & Hbelow).
    { lia. } { exists k. split; [lia | done]. }
    exists k'. split; [lia|]. split.
    + rewrite <- Hres. f_equal. symmetry. apply candidate_suffix. lia.
    + split; [done|]. intros j Hj.
      destruct (decide (j = c)) as [->|]; [done|]. apply Hbelow. lia.
  - exists c. split; [lia|]. split; [done|]. split; [|intros; lia].
    intros Hin'%includes_spec. congruence.
Qed.

Lemma unique_name_least (ex : list string) n :
  exists k,
    (1 <= k)%nat
    /\ unique_name ex n = candidate n k
    /\ (candidate n k ∉ ex)
    /\ forall j, (1 <= j < k)%nat -> candidate n j ∈ ex.
Proof.
  unfold unique_name. change n with (candidate n 1) at 2.
  apply unique_name_loop_least; [done|]. apply candidate_free_exists.
Qed.

(** The loop always ends with a name that no student bears. *)
Lemma unique_name_fresh (ex : list string) n : unique_name ex n ∉ ex.
Proof. destruct (unique_name_least ex n) as (k & _ & -> & H & _). done. Qed.

(** The result depends on the set of existing names only. *)
Lemma unique_name_set (ex1 ex2 : list string) n :
  (forall x, x ∈ ex1 <-> x ∈ ex2) -> unique_name ex1 n = unique_name ex2 n.
Proof.
  intros Hset.
  destruct (unique_name_least ex1 n) as (k1 & Hk1 & -> & Hf1 & Hb1).
  destruct (unique_name_least ex2 n) as (k2 & Hk2 & -> & Hf2 & Hb2).
  destruct (lt_eq_lt_dec k1 k2) as [[Hlt| ->]|Hlt]; [|done|].
  - destruct Hf1. apply Hset, Hb2. lia.
  - destruct Hf2. apply Hset, Hb1. lia.
Qed.

Lemma candidate_ne n k : k <> 1%nat -> candidate n k <> n.
Proof.
  intros Hk E. rewrite candidate_suffix in E by done.
  apply (f_equal String.length) in E. rewrite append_length in E.
  simpl in E. lia.
Qed.

Lemma obj_set_None_app {V} k (v : V) o :
  obj_get k o = None -> obj_set k v o = o ++ [(k, v)].
Proof.
  induction o as [|[k' v'] o IH]; simpl; [done|].
  destruct (String.eqb k k'); [done|]. intros H. by rewrite IH.
Qed.

(** C6.  A socket without a student entry joins with a name that, trimmed,
    is not empty and is the display name of a registered student.  Then the
    new student's display name is the trimmed name followed by " (k)", where
    k is the least integer from 2 on for which that name is not yet a
    display name: " (2)" if free, else " (3)", and so on.  The name found is
    added to the roster, so the next such join gets a later number.  The
    result depends only on which display names exist, not on the order in
    which their bearers joined. *)
Theorem fresh_join_suffix (sid : string) (now : Z) (nm : string) (s : State) :
  obj_get sid (students s) = None ->
  trim nm <> "" ->
  trim nm ∈ names s ->
  exists k,
    let resolved := trim nm +:+ " (" +:+ pretty k +:+ ")" in
    (2 <= k)%nat
    /\ obj_get sid (students (fst (join_student sid now nm s)))
       = Some (mkStudent resolved (trim nm) false now sid None None)
    /\ (exists rest,
          snd (join_student sid now nm s) =
            (ToSocket sid,
             E_join_success resolved (trim nm)
               (Some "Name was modified to ensure uniqueness")) :: rest)
    /\ (resolved ∉ names s)
    /\ (forall j, (2 <= j < k)%nat ->
          trim nm +:+ " (" +:+ pretty j +:+ ")" ∈ names s)
    /\ names (fst (join_student sid now nm s)) = names s ++ [resolved]
    /\ (forall s2 now2,
          obj_get sid (students s2) = None ->
          (forall x, x ∈ names s <-> x ∈ names s2) ->
          name <$> obj_get sid (students (fst (join_student sid now2 nm s2)))
            = Some resolved).
Proof.
  intros Hget Hnm Hcoll.
  destruct (unique_name_least (names s) (trim nm))
    as (k & Hk & Hres & Hfree & Hbelow).
  assert (Hk2 : (2 <= k)%nat).
  { destruct (decide (k = 1%nat)) as [->|]; [done | lia]. }
  rewrite candidate_suffix in Hres, Hfree by lia.
  exists k. simpl.
  assert (Hjoin : forall s0 now0,
            obj_get sid (students s0) = None ->
            join_student sid now0 nm s0 =
              (mkState (currentPoll s0)
                 (obj_set sid (mkStudent (unique_name (names s0) (trim nm))
                                 (trim nm) false now0 sid None None)
                          (students s0))
                 (pollResults s0) (pastPolls s0) (pollTimeout s0)
                 (chatMessages s0) (chatParticipants s0),
               [(ToSocket sid,
                 join_success_of
                   (mkStudent (unique_name (names s0) (trim nm))
                      (trim nm) false now0 sid None None) (trim nm))]
               ++ match currentPoll s0 with
                  | Some p =>
                      [(ToSocket sid,
                        E_new_question p (Some (timeRemaining now0 p)))]
                  | None => []
                  end
               ++ [(ToAll, E_student_count_update
                      (length (obj_keys
                         (obj_set sid
                            (mkStudent (unique_name (names s0) (trim nm))
                               (trim nm) false now0 sid None None)
                            (students s0)))))])).
  { intros s0 now0 H0. unfold join_student.
    by rewrite (trim_nonempty _ Hnm), H0. }
  rewrite (Hjoin s now Hget). rewrite Hres. simpl.
  split; [done|]. split; [apply obj_get_set_eq|]. split.
  { unfold join_success_of. simpl.
    destruct (String.eqb_spec (trim nm) "") as [|_]; [done|].
    destruct (String.eqb_spec (trim nm +:+ " (" +:+ pretty k +:+ ")") (trim nm))
      as [E|_]; [|by eexists].
    exfalso. apply (candidate_ne (trim nm) k); [lia|].
    by rewrite candidate_suffix by lia. }
  split; [done|]. split.
  { intros j Hj. rewrite <- candidate_suffix by lia. apply Hbelow. lia. }
  split.
  { unfold names. simpl. rewrite (obj_set_None_app _ _ _ Hget).
    unfold obj_values. by rewrite !map_app. }
  intros s2 now2 Hget2 Hset.
  rewrite (Hjoin s2 now2 Hget2).
  rewrite <- (unique_name_set _ _ (trim nm) Hset), Hres. simpl.
  by rewrite obj_get_set_eq.
Qed.

Lemma fresh_join_suffix_witness :
  name <$> obj_get "c" (students (fst (join_student "c" 2 "Sam" two_sams)))
    = Some "Sam (3)".
Proof.
  destruct (fresh_join_suffix "c" 2 "Sam" two_sams) as (k & _ & Hk & _).
  - reflexivity.
  - vm_compute. discriminate.
  - vm_compute. apply list_elem_of_here.
  - reflexivity.
Defined.

(** ** The life of a poll *)

(** What one step can do to the poll: leave it in place, complete it, or
    (on a successful start) archive it and install the next one. *)
Lemma step_poll_cases now e s :
  (currentPoll (fst (step now e s)) = currentPoll s
   /\ pastPolls (fst (step now e s)) = pastPolls s)
  \/ (exists p r,
        currentPoll s = Some p
        /\ currentPoll (fst (step now e s)) = None
        /\ pastPolls (fst (step now e s)) = pastPolls s ++ [r]
        /\ poll r = p
        /\ existsb is_poll_ended (snd (step now e s)) = true
        /\ completion_cause e (snd (step now e s)) r)
  \/ (exists sid pd p',
        e = FromSocket sid (Teacher_start_poll pd)
        /\ currentPoll (fst (step now e s)) = Some p'
        /\ snd (step now e s) =
             [(ToAll, E_new_question p' None); (ToSocket sid, E_poll_started p')]
        /\ pastPolls (fst (step now e s)) = pastPolls (resetPoll now s)).
Proof.
  destruct e as [sid r|]; [destruct_request r|]; simpl.
  all: try (left; unfold_handlers; by repeat (simpl; case_match)).
  - (* teacher_start_poll *)
    unfold teacher_start_poll.
    destruct (invalid_poll_data pd); [by left|].
    destruct (_ && _); [by left|].
    right; right. by eexists _, _, _.
  - (* submit_answer *)
    unfold submit_answer.
    destruct (currentPoll s) as [p|] eqn:Hp; [|by left].
    destruct (obj_get sid (students s)) as [st|]; [|by left].
    destruct (answered st); [by left|].
    destruct (negb _); [by left|].
    destruct (_ >? _); [by left|].
    destruct (forallb _ _ && _) eqn:Hall; [|by left].
    apply andb_true_iff in Hall as [Hall Hlen].
    right; left. unfold endPoll. simpl.
    eexists _, _. repeat split.
    right; right. eexists _, _. repeat split; simpl.
    + by apply Nat.ltb_lt.
    + by apply answered_count_all, forallb_answered.
  - (* teacher_end_poll *)
    unfold teacher_end_poll, endPoll.
    destruct (currentPoll s) as [p|] eqn:Hp; [|by left].
    right; left. simpl. rewrite Hp. eexists _, _. repeat split.
    right; left. by eexists.
  - (* the timer *)
    unfold timer_fires, endPoll.
    destruct (pollTimeout s); [|by left].
    destruct (currentPoll s) as [p|] eqn:Hp; [|by left].
    right; left. simpl. rewrite Hp. eexists _, _. repeat split. by left.
Qed.

(** [kick_student] and [disconnect] touch the roster and nothing of the poll. *)
Lemma removal_keeps_poll now sid e s :
  (e = Disconnect \/ exists studentName, e = Kick_student studentName) ->
  currentPoll (fst (handle sid now e s)) = currentPoll s
  /\ pollResults (fst (handle sid now e s)) = pollResults s
  /\ pastPolls (fst (handle sid now e s)) = pastPolls s
  /\ pollTimeout (fst (handle sid now e s)) = pollTimeout s
  /\ existsb is_poll_ended (snd (handle sid now e s)) = false.
Proof.
  intros [->|[nm ->]]; simpl.
  - unfold disconnect. simpl. repeat split.
    rewrite existsb_app. apply orb_false_iff. split.
    + by destruct (obj_get sid (students s)).
    + induction (map_to_list (chatParticipants s)) as [|kv l IH]; simpl; [done|].
      rewrite existsb_app, IH, orb_false_r. by destruct (existsb _ kv.2).
  - unfold kick_student. by repeat (simpl; case_match).
Qed.

(** C5, as stated, fails.  Sam has answered and Bob has not; Bob's socket
    disconnects, or the teacher removes Bob.  Now every registered student
    has answered and there is one, and yet the poll is still active: nothing
    was archived and no [poll_ended] was broadcast. *)
Lemma removal_does_not_complete :
  (Active bob_disconnected
   /\ all_answered bob_disconnected
   /\ length (students bob_disconnected) = 1%nat
   /\ pastPolls bob_disconnected = []
   /\ existsb is_poll_ended
        (snd (run [(3, FromSocket "a" (Submit_answer "Red"));
                   (4, FromSocket "b" Disconnect)] sam_bob_poll)) = false)
  /\ (Active bob_kicked
      /\ all_answered bob_kicked
      /\ length (students bob_kicked) = 1%nat
      /\ pastPolls bob_kicked = []
      /\ existsb is_poll_ended
           (snd (run [(3, FromSocket "a" (Submit_answer "Red"));
                      (4, FromSocket "t" (Kick_student "Bob"))] sam_bob_poll))
         = false).
Proof.
  split.
  - split; [vm_compute; eauto|]. split; [|by vm_compute].
    vm_compute. repeat constructor.
  - split; [vm_compute; eauto|]. split; [|by vm_compute].
    vm_compute. repeat constructor.
Qed.

(** C5, amended.  While a poll is active, a step leaves the state Idle only
    by completing the poll (the record is archived and [poll_ended] is
    broadcast), and only for one of three causes: the timer fired, the
    teacher asked for the end, or a submission was accepted after which every
    registered student had answered.  Each of the three does complete the
    poll.  The history grows in no other way except by a successful start,
    which archives the active poll and installs the next one.  The
    all-answered test is made only at the end of an accepted submission:
    [kick_student] and [disconnect] remove the student and leave the poll,
    the tally, the history and the timer as they are, whoever remains. *)
Theorem leaves_active_by_completion (now : Z) (e : event) (s : State)
    (p : Poll) :
  currentPoll s = Some p ->
  (Idle (fst (step now e s)) ->
     exists r,
       pastPolls (fst (step now e s)) = pastPolls s ++ [r]
       /\ poll r = p
       /\ existsb is_poll_ended (snd (step now e s)) = true
       /\ completion_cause e (snd (step now e s)) r)
  /\ (pastPolls (fst (step now e s)) <> pastPolls s ->
      Active (fst (step now e s)) ->
      exists sid pd, e = FromSocket sid (Teacher_start_poll pd))
  /\ (e = TimerFires -> pollTimeout s <> None -> Idle (fst (step now e s)))
  /\ (forall sid, e = FromSocket sid Teacher_end_poll ->
        Idle (fst (step now e s)))
  /\ (forall sid r,
        e = FromSocket sid r ->
        r = Disconnect \/ (exists studentName, r = Kick_student studentName) ->
        currentPoll (fst (step now e s)) = Some p
        /\ pollResults (fst (step now e s)) = pollResults s
        /\ pastPolls (fst (step now e s)) = pastPolls s
        /\ pollTimeout (fst (step now e s)) = pollTimeout s
        /\ existsb is_poll_ended (snd (step now e s)) = false).
Proof.
  intros Hp. split; [|split; [|split; [|split]]].
  - intros Hidle. unfold Idle in Hidle.
    destruct (step_poll_cases now e s)
      as [[Hc _]|[(p0 & r & Hp0 & _ & Hpast & Hr & Hend & Hcause)
                 |(sid & pd & p' & _ & Hc & _)]].
    + congruence.
    + exists r. repeat split; try done. congruence.
    + congruence.
  - intros Hpast [p1 Hact].
    destruct (step_poll_cases now e s)
      as [[_ Hsame]|[(p0 & r & _ & Hc & _)|[sid [pd [p' [-> _]]]]]].
    + done.
    + congruence.
    + by eexists _, _.
  - intros -> Htimer. unfold Idle. simpl. unfold timer_fires.
    destruct (pollTimeout s); [apply endPoll_idle | done].
  - intros sid ->. unfold Idle. simpl. unfold teacher_end_poll.
    rewrite Hp. pose proof (endPoll_idle now s) as H.
    by destruct (endPoll now s).
  - intros sid r -> Hr. simpl.
    destruct (removal_keeps_poll now sid r s Hr) as (H1 & H2 & H3 & H4 & H5).
    repeat split; try done. congruence.
Qed.

Lemma leaves_active_by_completion_witness :
  currentPoll (fst (step 4 (FromSocket "b" Disconnect)
                      (fst (submit_answer "a" 3 "Red" sam_bob_poll))))
    = Some (mkPoll "Color?" ["Red"; "Blue"] 60 2 "teacher")
  /\ Idle (fst (step 4 (FromSocket "t" Teacher_end_poll) sam_bob_poll)).
Proof.
  split.
  - destruct (leaves_active_by_completion 4 (FromSocket "b" Disconnect)
                (fst (submit_answer "a" 3 "Red" sam_bob_poll))
                (mkPoll "Color?" ["Red"; "Blue"] 60 2 "teacher") eq_refl)
      as (_ & _ & _ & _ & H).
    destruct (H "b" Disconnect eq_refl (or_introl eq_refl)) as [Hc _].
    exact Hc.
  - destruct (leaves_active_by_completion 4 (FromSocket "t" Teacher_end_poll)
                sam_bob_poll
                (mkPoll "Color?" ["Red"; "Blue"] 60 2 "teacher") eq_refl)
      as (_ & _ & _ & H & _).
    exact (H "t" eq_refl).
Defined.

(** ** One answer per registration *)

Lemma obj_set_elem {V} k k' (v x : V) o :
  (k, x) ∈ obj_set k' v o -> (k = k' /\ x = v) \/ (k, x) ∈ o.
Proof.
  induction o as [|[k0 v0] o IH]; simpl.
  - intros [= -> ->]%list_elem_of_singleton. by left.
  - destruct (String.eqb k' k0); rewrite !elem_of_cons.
    + intros [[= -> ->]|?]; [by left | right; by right].
    + intros [?|?]; [right; by left|].
      destruct IH as [?|?]; [done | by left | right; by right].
Qed.

Lemma obj_delete_elem {V} k k' (x : V) o :
  (k, x) ∈ obj_delete k' o -> (k, x) ∈ o.
Proof.
  induction o as [|[k0 v0] o IH]; simpl; [done|].
  destruct (String.eqb k' k0); rewrite !elem_of_cons; [by right|].
  intros [?|?]; [by left | right; auto].
Qed.

Lemma obj_set_elem_NoDup {V} k (v x : V) o :
  NoDup (obj_keys o) -> (k, x) ∈ obj_set k v o -> x = v.
Proof.
  induction o as [|[k0 v0] o IH]; simpl.
  - by intros _ [= ->]%list_elem_of_singleton.
  - intros [Hk0 Hnd]%NoDup_cons.
    destruct (String.eqb_spec k k0) as [->|Hne]; rewrite !elem_of_cons.
    + intros [[= ->]|Hin]; [done|]. destruct Hk0.
      apply list_elem_of_fmap. by exists (k0, x).
    + intros [[= -> ->]|Hin]; [done | auto].
Qed.

(** While the same poll runs, an entry of the roster is either an old one,
    or answered, or was written by a [join_student] of its socket. *)
Lemma step_students now e s p :
  currentPoll s = Some p ->
  length (pastPolls (fst (step now e s))) = length (pastPolls s) ->
  forall k x,
    (k, x) ∈ students (fst (step now e s)) ->
    (k, x) ∈ students s
    \/ answered x = true
    \/ exists nm, e = FromSocket k (Join_student nm).
Proof.
  intros Hp Hlen k x.
  destruct e as [sid r|]; [destruct_request r|]; simpl in *.
  all: try (unfold_handlers; repeat (simpl; case_match); simpl; by left).
  - (* join_student *)
    revert Hlen. unfold join_student.
    destruct (_ || _); simpl; [by left|].
    intros _ [[-> ->]|Hin]%obj_set_elem; [|by left].
    right; right. by eexists.
  - (* teacher_start_poll *)
    revert Hlen. unfold teacher_start_poll.
    destruct (invalid_poll_data pd); simpl; [by left|].
    destruct (_ && _); simpl; [by left|].
    rewrite Hp, length_app. simpl. lia.
  - (* submit_answer *)
    revert Hlen. unfold submit_answer. rewrite Hp.
    destruct (obj_get sid (students s)) as [st|]; [|by left].
    destruct (answered st); [by left|].
    destruct (negb _); [by left|].
    destruct (_ >? _); [by left|].
    destruct (_ && _); simpl.
    + unfold endPoll. simpl. rewrite length_app. simpl. lia.
    + intros _ [[-> ->]|Hin]%obj_set_elem; [right; by left | by left].
  - (* teacher_end_poll *)
    revert Hlen. unfold teacher_end_poll, endPoll. rewrite Hp. simpl.
    rewrite Hp, length_app. simpl. lia.
  - (* kick_student *)
    unfold kick_student. repeat (simpl; case_match); try by left.
    intros Hin%obj_delete_elem. by left.
  - (* disconnect *)
    unfold disconnect. simpl. intros Hin%obj_delete_elem. by left.
  - (* the timer *)
    revert Hlen. unfold timer_fires, endPoll. rewrite Hp.
    destruct (pollTimeout s); simpl; [|by left].
    rewrite Hp, length_app. simpl. lia.
Qed.

Lemma step_pastPolls_length now e s :
  (length (pastPolls s) <= length (pastPolls (fst (step now e s))))%nat.
Proof.
  destruct (step_poll_cases now e s)
    as [[_ ->]|[(p & r & _ & _ & -> & _)|(sid & pd & p' & _ & _ & _ & ->)]].
  - done.
  - rewrite length_app. lia.
  - simpl. destruct (currentPoll s); [rewrite length_app|]; lia.
Qed.

Lemma run_pastPolls_length evs s :
  (length (pastPolls s) <= length (pastPolls (fst (run evs s))))%nat.
Proof.
  revert s. induction evs as [|[now e] evs IH]; intros s; simpl; [done|].
  pose proof (step_pastPolls_length now e s) as H1.
  destruct (step now e s) as [s1 out1]. specialize (IH s1).
  destruct (run evs s1) as [s2 out2]. simpl in *. lia.
Qed.

Lemma step_same_poll now e s p sid :
  currentPoll s = Some p ->
  length (pastPolls (fst (step now e s))) = length (pastPolls s) ->
  is_join_of sid (now, e) = false ->
  answered_by sid s ->
  currentPoll (fst (step now e s)) = Some p
  /\ answered_by sid (fst (step now e s)).
Proof.
  intros Hp Hlen Hjoin Hans. split.
  - destruct (step_poll_cases now e s)
      as [[-> _]|[(p0 & r & _ & _ & Hpast & _)|(sid' & pd & p' & _ & _ & _ & Hpast)]].
    + done.
    + rewrite Hpast, length_app in Hlen. simpl in Hlen. lia.
    + rewrite Hpast in Hlen. simpl in Hlen.
      rewrite Hp, length_app in Hlen. simpl in Hlen. lia.
  - intros x Hin.
    destruct (step_students now e s p Hp Hlen sid x Hin) as [?|[?|[nm ->]]].
    + by apply Hans.
    + done.
    + unfold is_join_of in Hjoin. simpl in Hjoin.
      by rewrite String.eqb_refl in Hjoin.
Qed.

Lemma run_same_poll evs s p sid :
  currentPoll s = Some p ->
  length (pastPolls (fst (run evs s))) = length (pastPolls s) ->
  no_rejoin sid evs ->
  answered_by sid s ->
  currentPoll (fst (run evs s)) = Some p
  /\ answered_by sid (fst (run evs s)).
Proof.
  revert s. induction evs as [|[now e] evs IH]; intros s Hp Hlen Hno Hans.
  { done. }
  unfold no_rejoin in Hno. simpl in Hno.
  apply andb_true_iff in Hno as [Hjoin Hno]. apply negb_true_iff in Hjoin.
  simpl in *.
  pose proof (step_pastPolls_length now e s) as Hmono1.
  pose proof (step_same_poll now e s p sid Hp) as Hstep.
  destruct (step now e s) as [s1 out1]. simpl in *.
  pose proof (run_pastPolls_length evs s1) as Hmono2.
  specialize (IH s1).
  destruct (run evs s1) as [s2 out2]. simpl in *.
  destruct Hstep as [Hp1 Hans1]; [lia | done | done |].
  apply IH; [done | lia | done | done].
Qed.

(** A submission is accepted only from a registered student who has not
    answered the active poll. *)
Lemma accepted_inv sid now ans s :
  accepted (snd (submit_answer sid now ans s)) = true ->
  exists p st,
    currentPoll s = Some p
    /\ obj_get sid (students s) = Some st
    /\ answered st = false.
Proof.
  unfold submit_answer.
  destruct (currentPoll s) as [p|]; [|done].
  destruct (obj_get sid (students s)) as [st|]; [|done].
  destruct (answered st) eqn:E; [done|]. intros _. by eexists _, _.
Qed.

Lemma submit_answer_rejected sid now ans s p st :
  currentPoll s = Some p ->
  obj_get sid (students s) = Some st ->
  answered st = true ->
  submit_answer sid now ans s = (s, already_answered_error sid).
Proof. intros Hp Hget Hans. unfold submit_answer. by rewrite Hp, Hget, Hans. Qed.

(** After an accepted submission either the poll was archived or the
    student is marked answered. *)
Lemma accepted_marks sid now ans s :
  wf_state s ->
  accepted (snd (submit_answer sid now ans s)) = true ->
  length (pastPolls (fst (submit_answer sid now ans s))) = length (pastPolls s) ->
  currentPoll (fst (submit_answer sid now ans s)) = currentPoll s
  /\ answered_by sid (fst (submit_answer sid now ans s)).
Proof.
  intros Hwf. unfold submit_answer.
  destruct (currentPoll s) as [p|] eqn:Hp; [|done].
  destruct (obj_get sid (students s)) as [st|]; [|done].
  destruct (answered st); [done|].
  destruct (negb _); [done|].
  destruct (_ >? _); [done|].
  destruct (_ && _); simpl.
  - unfold endPoll. simpl. rewrite length_app. simpl. lia.
  - intros _ _. split; [done|]. intros x Hin. simpl in Hin.
    by apply (obj_set_elem_NoDup _ _ _ _ Hwf) in Hin as ->.
Qed.

Lemma not_accepted_unchanged sid now ans s :
  accepted (snd (submit_answer sid now ans s)) = false ->
  fst (submit_answer sid now ans s) = s.
Proof.
  unfold submit_answer.
  destruct (currentPoll s) as [p|]; [|done].
  destruct (obj_get sid (students s)) as [st|]; [|done].
  destruct (answered st); [done|].
  destruct (negb _); [done|].
  destruct (_ >? _); [done|].
  destruct (_ && _); [|done].
  match goal with |- context [endPoll ?t ?u] => destruct (endPoll t u) end.
  done.
Qed.

(** C1, as stated, fails.  Sam (socket [a]) and Bob are asked a poll.  Sam
    answers "Red" and is accepted; Sam's socket sends [join_student] again,
    which clears its answered flag; Sam answers "Red" once more and is
    accepted again.  The poll is the same all along (nothing was archived),
    and "Red" now counts 2 although only one student has answered. *)
Lemma double_submit_after_rejoin :
  accepted (snd (submit_answer "a" 3 "Red" sam_bob_poll)) = true
  /\ accepted (snd (submit_answer "a" 5 "Red" sam_rejoined)) = true
  /\ currentPoll sam_rejoined = currentPoll sam_bob_poll
  /\ Active (fst (submit_answer "a" 5 "Red" sam_rejoined))
  /\ pastPolls (fst (submit_answer "a" 5 "Red" sam_rejoined)) = []
  /\ pollResults (fst (submit_answer "a" 5 "Red" sam_rejoined)) !! "Red"
     = Some (Num 2)
  /\ answered_count (students (fst (submit_answer "a" 5 "Red" sam_rejoined)))
     = 1%nat.
Proof.
  repeat split; try reflexivity. vm_compute. eauto.
Qed.

(** C1, amended.  While a poll is active and a student's answered flag is
    set, every submission from that socket, whatever the option, is refused
    with "You have already answered this poll" and changes nothing.  After
    an accepted submission, as long as the same poll runs (nothing has been
    archived since) and the socket has not sent [join_student] again, no
    further submission from that socket is accepted, and each one leaves the
    state as it was.  ([join_student] on the same socket clears the flag, and
    then the student can be accepted once more in the same poll.) *)
Theorem submit_once_until_rejoin (sid : string) (now : Z) (ans : string)
    (s : State) :
  wf_state s ->
  (forall p st,
     currentPoll s = Some p ->
     obj_get sid (students s) = Some st ->
     answered st = true ->
     submit_answer sid now ans s = (s, already_answered_error sid))
  /\ (accepted (snd (submit_answer sid now ans s)) = true ->
      forall evs now' ans',
        no_rejoin sid evs ->
        let s' := fst (run evs (fst (submit_answer sid now ans s))) in
        length (pastPolls s') = length (pastPolls s) ->
        currentPoll s' = currentPoll s
        /\ accepted (snd (submit_answer sid now' ans' s')) = false
        /\ fst (submit_answer sid now' ans' s') = s').
Proof.
  intros Hwf. split.
  { intros p st. apply submit_answer_rejected. }
  intros Hacc evs now' ans' Hno s' Hlen.
  destruct (accepted_inv _ _ _ _ Hacc) as (p & st & Hp & _).
  pose proof (step_pastPolls_length now (FromSocket sid (Submit_answer ans)) s)
    as Hm1. simpl in Hm1.
  pose proof (run_pastPolls_length evs (fst (submit_answer sid now ans s)))
    as Hm2. fold s' in Hm2.
  destruct (accepted_marks sid now ans s Hwf Hacc) as [Hp1 Hans1]; [lia|].
  rewrite Hp in Hp1.
  destruct (run_same_poll evs _ p sid Hp1) as [Hp2 Hans2];
    [fold s'; lia | done | done |].
  fold s' in Hp2, Hans2.
  assert (Hrej : accepted (snd (submit_answer sid now' ans' s')) = false).
  { destruct (accepted (snd (submit_answer sid now' ans' s'))) eqn:E; [|done].
    destruct (accepted_inv _ _ _ _ E) as (p' & st' & _ & Hget & Hun).
    apply obj_get_elem, Hans2 in Hget. congruence. }
  split; [congruence|]. split; [done|]. by apply not_accepted_unchanged.
Qed.

Lemma submit_once_until_rejoin_witness :
  accepted
    (snd (submit_answer "a" 9 "Blue"
            (fst (run [(4, FromSocket "b" (Join_student "Bobby"));
                       (5, FromSocket "t" (Kick_student "Nobody"))]
                      (fst (submit_answer "a" 3 "Red" sam_bob_poll))))))
    = false.
Proof.
  assert (Hwf : wf_state sam_bob_poll).
  { vm_compute. apply NoDup_cons. split; [|apply NoDup_singleton].
    intros H%list_elem_of_singleton. discriminate H. }
  destruct (submit_once_until_rejoin "a" 3 "Red" sam_bob_poll Hwf) as [_ H].
  refine (proj1 (proj2
            (H eq_refl
               [(4, FromSocket "b" (Join_student "Bobby"));
                (5, FromSocket "t" (Kick_student "Nobody"))]
               9 "Blue" _ _)));
    reflexivity.
Defined.

(** ** Reachable states *)

Lemma reset_answered_keys o : obj_keys (reset_answered o) = obj_keys o.
Proof. unfold reset_answered, obj_keys. rewrite map_map. done. Qed.

Lemma step_wf now e s : wf_state s -> wf_state (fst (step now e s)).
Proof.
  unfold wf_state. intros Hwf.
  assert (Hreset : NoDup (obj_keys (reset_answered (students s)))).
  { by rewrite reset_answered_keys. }
  destruct e as [sid r|]; [destruct_request r|]; simpl.
  all: unfold_handlers; repeat (simpl; case_match); simplify_eq/=.
  all: rewrite ?reset_answered_keys; try done.
  all: first [by apply obj_set_NoDup | by apply obj_delete_NoDup].
Qed.

(** The roster of a reachable state has one entry per socket. *)
Lemma reachable_wf s : reachable s -> wf_state s.
Proof.
  induction 1 as [|s now e _ IH]; [apply NoDup_nil_2 | by apply step_wf].
Qed.

Lemma reachable_run evs s : reachable s -> reachable (fst (run evs s)).
Proof.
  revert s. induction evs as [|[now e] evs IH]; intros s Hs; simpl; [done|].
  pose proof (reachable_step s now e Hs) as H1.
  destruct (step now e s) as [s1 out1]. specialize (IH s1 H1).
  by destruct (run evs s1).
Qed.

(** In a reachable state the timer is armed exactly while a poll is active. *)
Lemma reachable_timer s :
  reachable s -> (pollTimeout s = None <-> currentPoll s = None).
Proof.
  induction 1 as [|s now e _ IH]; [done|].
  destruct e as [sid r|]; [destruct_request r|]; simpl.
  all: unfold_handlers; repeat (simpl; case_match); simplify_eq/=.
  all: first [exact IH | intuition congruence].
Qed.

(** * Further properties of the handlers *)

(** ** Names *)

Lemma trim_start_blank s :
  trim_start s = "" <-> all_white_space s = true.
Proof.
  induction s as [|c s IH]; simpl; [done|].
  destruct (is_white_space c); simpl; [done|]. split; discriminate.
Qed.

Lemma trim_end_blank s :
  trim_end s = "" <-> all_white_space s = true.
Proof.
  induction s as [|c s IH]; simpl; [done|].
  destruct (trim_end s) eqn:E.
  - destruct (is_white_space c); simpl; [done|]. split; discriminate.
  - rewrite andb_true_iff. split; [discriminate|].
    intros [_ H]. apply IH in H. discriminate.
Qed.

Lemma trim_start_all_white_space s :
  all_white_space (trim_start s) = all_white_space s.
Proof.
  induction s as [|c s IH]; simpl; [done|].
  destruct (is_white_space c) eqn:E; simpl; [done | by rewrite E].
Qed.

Lemma trim_blank s : trim s = "" <-> all_white_space s = true.
Proof.
  unfold trim. by rewrite trim_end_blank, trim_start_all_white_space.
Qed.

(** X1.  [join_student] refuses exactly the names that consist of white
    space only (the empty name included): the socket gets [join_error] and
    nothing changes.  Any other name is accepted: the socket has a roster
    entry afterwards and the first emission is its [join_success]. *)
Theorem join_student_blank_name (sid : string) (now : Z) (nm : string)
    (s : State) :
  (all_white_space nm = true ->
     join_student sid now nm s = (s, name_required_error sid))
  /\ (all_white_space nm = false ->
      exists st rest,
        obj_get sid (students (fst (join_student sid now nm s))) = Some st
        /\ answered st = false
        /\ joinedAt st = now
        /\ snd (join_student sid now nm s) =
             (ToSocket sid, join_success_of st (trim nm)) :: rest).
Proof.
  split.
  - intros H%trim_blank. unfold join_student. rewrite H. simpl.
    by rewrite orb_true_r.
  - intros H.
    assert (Hnm : trim nm <> "").
    { intros E%trim_blank. congruence. }
    unfold join_student. rewrite (trim_nonempty _ Hnm). simpl.
    eexists _, _. split; [apply obj_get_set_eq|].
    split; [by destruct (obj_get sid (students s))|].
    split; [by destruct (obj_get sid (students s))|]. reflexivity.
Qed.

Lemma join_student_blank_name_witness :
  join_student "a" 3 "   " sam_then_poll
    = (sam_then_poll, name_required_error "a").
Proof.
  exact (proj1 (join_student_blank_name "a" 3 "   " sam_then_poll) eq_refl).
Defined.

Lemma unique_name_free (ex : list string) n :
  n ∉ ex -> unique_name ex n = n.
Proof.
  intros Hfree.
  destruct (unique_name_least ex n) as (k & Hk & -> & _ & Hbelow).
  destruct (decide (k = 1%nat)) as [->|Hne]; [done|].
  destruct Hfree. apply (Hbelow 1%nat). lia.
Qed.

(** X2.  A socket without a roster entry joins with a name that is not
    blank.  The display name it is given is borne by no registered student;
    it is appended to the roster, which grows by one, and the broadcast
    count is the new size.  When the trimmed name is free it is taken as it
    is and the reply carries no note. *)
Theorem fresh_join_unique (sid : string) (now : Z) (nm : string) (s : State) :
  obj_get sid (students s) = None ->
  trim nm <> "" ->
  exists resolved,
    (resolved ∉ names s)
    /\ students (fst (join_student sid now nm s)) =
         students s ++
           [(sid, mkStudent resolved (trim nm) false now sid None None)]
    /\ names (fst (join_student sid now nm s)) = names s ++ [resolved]
    /\ last (snd (join_student sid now nm s)) =
         Some (ToAll, E_student_count_update (S (length (students s))))
    /\ (trim nm ∉ names s ->
        resolved = trim nm
        /\ head (snd (join_student sid now nm s)) =
             Some (ToSocket sid, E_join_success (trim nm) (trim nm) None)).
Proof.
  intros Hget Hnm. exists (unique_name (names s) (trim nm)).
  unfold join_student. rewrite (trim_nonempty _ Hnm), Hget. simpl.
  rewrite (obj_set_None_app _ _ _ Hget).
  split; [apply unique_name_fresh|]. split; [done|]. split.
  { unfold names, obj_values. simpl. by rewrite !map_app. }
  split.
  { unfold obj_keys. rewrite length_map, length_app. simpl.
    replace (length (students s) + 1)%nat with (S (length (students s)))
      by lia.
    by destruct (currentPoll s). }
  intros Hfree. fold (names s). rewrite (unique_name_free _ _ Hfree).
  split; [done|].
  unfold join_success_of. simpl. rewrite String.eqb_refl.
  by destruct (String.eqb_spec (trim nm) "").
Qed.

Lemma fresh_join_unique_witness :
  names (fst (join_student "c" 2 " Ann " two_sams)) = ["Sam"; "Sam (2)"; "Ann"].
Proof.
  destruct (fresh_join_unique "c" 2 " Ann " two_sams) as (r & _ & _ & H & _).
  - reflexivity.
  - vm_compute. discriminate.
  - reflexivity.
Defined.

(** ** The roster *)

Lemma reset_answered_names o :
  map name (obj_values (reset_answered o)) = map name (obj_values o).
Proof.
  unfold reset_answered, obj_values. rewrite !map_map. done.
Qed.

Lemma obj_set_same_name sid (st st' : Student) o :
  obj_get sid o = Some st ->
  name st' = name st ->
  map name (obj_values (obj_set sid st' o)) = map name (obj_values o).
Proof.
  intros Hget Hname. induction o as [|[k v] o IH]; simpl in *; [done|].
  destruct (String.eqb sid k); simpl.
  - injection Hget as ->. by rewrite Hname.
  - by rewrite IH.
Qed.

Lemma obj_delete_names_elem k (o : list (string * Student)) x :
  x ∈ map name (obj_values (obj_delete k o)) -> x ∈ map name (obj_values o).
Proof.
  induction o as [|[k' v'] o IH]; simpl; [done|].
  destruct (String.eqb k k'); simpl; rewrite !elem_of_cons; [by right|].
  intros [?|?]; [by left | right; auto].
Qed.

Lemma obj_delete_names_NoDup k (o : list (string * Student)) :
  NoDup (map name (obj_values o)) ->
  NoDup (map name (obj_values (obj_delete k o))).
Proof.
  induction o as [|[k' v'] o IH]; simpl; [done|].
  intros [Hx Hnd]%NoDup_cons.
  destruct (String.eqb k k'); simpl; [done|].
  apply NoDup_cons. split; [|auto].
  intros Hin. apply Hx. by eapply obj_delete_names_elem.
Qed.

(** X3.  Display names that are pairwise different stay so under every
    event except a [join_student] from a socket that already has an entry
    (the re-join path takes the new name unchecked). *)
Theorem display_names_stay_unique (now : Z) (e : event) (s : State) :
  NoDup (names s) ->
  not_a_rejoin e s ->
  NoDup (names (fst (step now e s))).
Proof.
  unfold names. intros Hnd Hfresh.
  destruct e as [sid r|]; [destruct_request r|]; simpl.
  all: try (unfold_handlers; repeat (simpl; case_match); simplify_eq/=;
            by rewrite ?reset_answered_names).
  - (* join_student *)
    unfold join_student. destruct (_ || _); simpl; [done|].
    rewrite (Hfresh sid nm eq_refl).
    rewrite (obj_set_None_app _ _ _ (Hfresh sid nm eq_refl)).
    unfold obj_values. rewrite !map_app. simpl.
    apply NoDup_app. split; [done|]. split; [|apply NoDup_singleton].
    intros x Hx ->%list_elem_of_singleton.
    by apply (unique_name_fresh (map name (obj_values (students s))) (trim nm)).
  - (* submit_answer *)
    unfold submit_answer, endPoll.
    destruct (currentPoll s) as [p|]; [|done].
    destruct (obj_get sid (students s)) as [st|] eqn:Hget; [|done].
    destruct (answered st); [done|].
    destruct (negb _); [done|].
    destruct (_ >? _); [done|].
    destruct (_ && _); simpl; rewrite ?reset_answered_names;
      by rewrite (obj_set_same_name _ _ _ _ Hget).
  - (* kick_student *)
    unfold kick_student. repeat (simpl; case_match); try done.
    by apply obj_delete_names_NoDup.
  - (* disconnect *)
    unfold disconnect. simpl. by apply obj_delete_names_NoDup.
Qed.

Lemma display_names_stay_unique_witness :
  NoDup (names (fst (step 2 (FromSocket "c" (Join_student "Sam")) two_sams))).
Proof.
  apply display_names_stay_unique.
  - vm_compute. apply NoDup_cons. split; [|apply NoDup_singleton].
    intros H%list_elem_of_singleton. discriminate H.
  - intros sid nm [= <- <-]. reflexivity.
Defined.

Lemma find_by_name_None nm (o : list (string * Student)) :
  nm ∉ map name (obj_values o) -> find_by_name nm o = None.
Proof.
  unfold find_by_name. induction o as [|[k st] o IH]; simpl; [done|].
  rewrite not_elem_of_cons. intros [Hne Hnin].
  destruct (String.eqb_spec (name st) nm); [congruence | auto].
Qed.

Lemma find_by_name_split nm (o : list (string * Student)) :
  nm ∈ map name (obj_values o) ->
  exists l1 k st l2,
    o = l1 ++ (k, st) :: l2
    /\ name st = nm
    /\ (nm ∉ map name (obj_values l1))
    /\ find_by_name nm o = Some k.
Proof.
  unfold find_by_name. induction o as [|[k st] o IH]; simpl.
  - by intros ?%elem_of_nil.
  - destruct (String.eqb_spec (name st) nm) as [E|Hne].
    + intros _. exists [], k, st, o. repeat split; try done.
      apply not_elem_of_nil.
    + rewrite elem_of_cons. intros [?|Hin]; [congruence|].
      destruct (IH Hin) as (l1 & k' & st' & l2 & -> & Hn & Hl1 & Hf).
      exists ((k, st) :: l1), k', st', l2. repeat split; try done.
      simpl. rewrite not_elem_of_cons. split; [congruence | done].
Qed.

Lemma obj_delete_split {V} k (v : V) l1 l2 :
  k ∉ obj_keys l1 -> obj_delete k (l1 ++ (k, v) :: l2) = l1 ++ l2.
Proof.
  induction l1 as [|[k' v'] l1 IH]; simpl.
  - intros _. by rewrite String.eqb_refl.
  - rewrite not_elem_of_cons. intros [Hne Hnin].
    destruct (String.eqb_spec k k'); [done|]. by rewrite IH.
Qed.

(** X4.  [kick_student] looks the name up among the display names.  If no
    student bears it, the teacher gets [kick_error] and nothing changes.
    Otherwise the first bearer in roster order, and only that entry, is
    removed; its socket is told [kicked], everyone gets the new count and
    the teacher [student_kicked]. *)
Theorem kick_student_first_bearer (sid : string) (studentName : string)
    (s : State) :
  (studentName ∉ names s ->
     kick_student sid studentName s = (s, kick_error sid))
  /\ (wf_state s ->
      "" ∉ obj_keys (students s) ->
      studentName ∈ names s ->
      exists l1 k st l2,
        students s = l1 ++ (k, st) :: l2
        /\ name st = studentName
        /\ (studentName ∉ map name (obj_values l1))
        /\ students (fst (kick_student sid studentName s)) = l1 ++ l2
        /\ snd (kick_student sid studentName s) =
             [(ToSocket k,
               E_kicked "You have been removed from the session by the teacher.");
              (ToAll, E_student_count_update (length (l1 ++ l2)));
              (ToSocket sid, E_student_kicked studentName)]).
Proof.
  split.
  - intros H%find_by_name_None. unfold kick_student. by rewrite H.
  - intros Hwf Hkeys Hin.
    destruct (find_by_name_split _ _ Hin) as (l1 & k & st & l2 & Hs & Hn & Hl1 & Hf).
    exists l1, k, st, l2. split; [done|]. split; [done|]. split; [done|].
    unfold wf_state in Hwf. rewrite Hs in Hwf, Hkeys.
    unfold obj_keys in Hwf, Hkeys. rewrite map_app in Hwf, Hkeys.
    simpl in Hwf, Hkeys.
    apply NoDup_app in Hwf as (_ & Hdisj & _).
    assert (Hk1 : k ∉ obj_keys l1).
    { intros Hk. apply (Hdisj k Hk). apply list_elem_of_here. }
    assert (Hk0 : k <> "").
    { intros ->. apply Hkeys. apply elem_of_app. right. apply list_elem_of_here. }
    unfold kick_student. rewrite Hf.
    destruct (String.eqb_spec k ""); [done|]. simpl.
    rewrite Hs, (obj_delete_split _ _ _ _ Hk1). unfold obj_keys.
    by rewrite length_map.
Qed.

Lemma kick_student_first_bearer_witness :
  (exists l1 k st l2,
     students two_sams = l1 ++ (k, st) :: l2
     /\ students (fst (kick_student "t" "Sam" two_sams)) = l1 ++ l2)
  /\ kick_student "t" "Ann" two_sams = (two_sams, kick_error "t").
Proof.
  destruct (kick_student_first_bearer "t" "Sam" two_sams) as [_ H1].
  destruct (kick_student_first_bearer "t" "Ann" two_sams) as [H2 _].
  split.
  - destruct H1 as (l1 & k & st & l2 & Hs & _ & _ & Hs' & _).
    + vm_compute. apply NoDup_cons. split; [|apply NoDup_singleton].
      intros H%list_elem_of_singleton. discriminate H.
    + vm_compute. intros H. apply elem_of_cons in H as [H|H]; [discriminate H|].
      apply list_elem_of_singleton in H. discriminate H.
    + vm_compute. apply list_elem_of_here.
    + by exists l1, k, st, l2.
  - apply H2. vm_compute. intros H.
    apply elem_of_cons in H as [H|H]; [discriminate H|].
    apply list_elem_of_singleton in H. discriminate H.
Defined.

Lemma obj_delete_absent {V} k (o : list (string * V)) :
  obj_get k o = None -> obj_delete k o = o.
Proof.
  induction o as [|[k' v'] o IH]; simpl; [done|].
  destruct (String.eqb k k'); [done|]. intros H. by rewrite IH.
Qed.

Lemma obj_delete_length {V} k (v : V) (o : list (string * V)) :
  obj_get k o = Some v -> S (length (obj_delete k o)) = length o.
Proof.
  induction o as [|[k' v'] o IH]; simpl; [done|].
  destruct (String.eqb k k'); simpl; [done|]. intros H. by rewrite IH.
Qed.

Lemma chat_cleanup_rooms_only (sid : string) (l : list (string * list ChatParticipant)) x :
  x ∈ flat_map
        (fun kv =>
           if existsb (fun p => String.eqb (p_id p) sid) (snd kv) then
             [(ToRoom (room_of (fst kv)),
               E_participants_updated
                 (remove_first (fun p => String.eqb (p_id p) sid) (snd kv)))]
           else []) l ->
  exists room parts, x = (ToRoom room, E_participants_updated parts).
Proof.
  induction l as [|kv l IH]; simpl; [by intros ?%elem_of_nil|].
  rewrite elem_of_app. intros [Hx|Hx]; [|auto].
  destruct (existsb _ _); [|by apply elem_of_nil in Hx].
  apply list_elem_of_singleton in Hx as ->. by eexists _, _.
Qed.

(** X5.  [disconnect] deletes the roster entry of the socket and no other.
    If there was an entry the roster shrinks by one and the new count is
    broadcast first; if there was none the roster stays as it is and no
    count is broadcast. *)
Theorem disconnect_roster (sid : string) (s : State) :
  wf_state s ->
  obj_get sid (students (fst (disconnect sid s))) = None
  /\ (forall k, k <> sid ->
        obj_get k (students (fst (disconnect sid s))) = obj_get k (students s))
  /\ (is_Some (obj_get sid (students s)) ->
      S (length (students (fst (disconnect sid s)))) = length (students s)
      /\ head (snd (disconnect sid s)) =
           Some (ToAll, E_student_count_update
                          (length (students (fst (disconnect sid s))))))
  /\ (obj_get sid (students s) = None ->
      students (fst (disconnect sid s)) = students s
      /\ forall n, (ToAll, E_student_count_update n) ∉ snd (disconnect sid s)).
Proof.
  intros Hwf. unfold disconnect. simpl.
  split; [by apply obj_get_delete_eq|].
  split; [intros k Hk; by apply obj_get_delete_ne|]. split.
  - intros [st Hst]. rewrite Hst. simpl. split; [by eapply obj_delete_length|].
    unfold obj_keys. by rewrite length_map.
  - intros Hnone. rewrite Hnone. simpl. split; [by apply obj_delete_absent|].
    intros n Hin. apply chat_cleanup_rooms_only in Hin as (room & parts & [=]).
Qed.

Lemma disconnect_roster_witness :
  obj_get "b" (students (fst (disconnect "b" two_sams))) = None
  /\ length (students (fst (disconnect "b" two_sams))) = 1%nat.
Proof.
  split; [|reflexivity].
  refine (proj1 (disconnect_roster "b" two_sams _)).
  vm_compute. apply NoDup_cons. split; [|apply NoDup_singleton].
  intros H%list_elem_of_singleton. discriminate H.
Defined.

(** ** The poll and its tally *)

(** X6.  In every reachable state the timer is armed exactly while a poll
    is active, and its delay is the poll's duration in milliseconds. *)
Theorem timer_follows_poll (s : State) :
  reachable s ->
  pollTimeout s = (fun p => duration p * 1000) <$> currentPoll s.
Proof.
  induction 1 as [|s now e _ IH]; [done|].
  destruct (currentPoll s) as [p|] eqn:Hp; simpl in IH.
  all: destruct e as [sid r|]; [destruct_request r|]; simpl.
  all: unfold_handlers; rewrite ?Hp, ?IH.
  all: repeat (simpl; case_match); simplify_eq/=.
  all: by rewrite ?IH, ?Hp.
Qed.

Lemma timer_follows_poll_witness :
  pollTimeout sam_bob_poll = Some 60000
  /\ pollTimeout (fst (submit_answer "a" 5 "Red" sam_then_poll)) = None.
Proof.
  split.
  - refine (timer_follows_poll sam_bob_poll _).
    unfold sam_bob_poll. apply reachable_run, reachable_initial.
  - refine (timer_follows_poll (fst (submit_answer "a" 5 "Red" sam_then_poll)) _).
    apply (reachable_step sam_then_poll 5 (FromSocket "a" (Submit_answer "Red"))).
    unfold sam_then_poll. apply reachable_run, reachable_initial.
Defined.

Lemma init_results_from (opts : list string) (m : gmap string count) o :
  fold_left (fun m o => <[o := Num 0]> m) opts m !! o =
    if decide (o ∈ opts) then Some (Num 0) else m !! o.
Proof.
  revert m. induction opts as [|x opts IH]; intros m; simpl.
  - destruct (decide (o ∈ [])) as [H|_]; [by apply elem_of_nil in H | done].
  - rewrite IH. destruct (decide (o ∈ opts)) as [Hin|Hnin].
    + rewrite decide_True; [done | by apply list_elem_of_further].
    + destruct (decide (o = x)) as [->|Hne].
      * rewrite lookup_insert_eq.
        rewrite decide_True; [done | apply list_elem_of_here].
      * rewrite lookup_insert_ne by done.
        rewrite decide_False; [done|].
        rewrite elem_of_cons. intros [?|?]; done.
Qed.

Lemma init_results_lookup (opts : list string) o :
  init_results opts !! o = if decide (o ∈ opts) then Some (Num 0) else None.
Proof. unfold init_results. by rewrite init_results_from, lookup_empty. Qed.

Lemma tally_ok_init p s :
  currentPoll s = Some p ->
  pollResults s = init_results (options p) ->
  tally_ok s.
Proof.
  intros Hp Hr. unfold tally_ok. rewrite Hp, Hr. split.
  - intros o Ho. exists 0%nat. rewrite init_results_lookup.
    by rewrite decide_True.
  - intros o [c Hc]. rewrite init_results_lookup in Hc.
    by destruct (decide (o ∈ options p)).
Qed.

Lemma tally_ok_increment p ans (m : gmap string count) :
  (forall o, o ∈ options p -> exists n, m !! o = Some (Num n)) ->
  (forall o, is_Some (m !! o) -> o ∈ options p) ->
  ans ∈ options p ->
  (forall o, o ∈ options p -> exists n, increment ans m !! o = Some (Num n))
  /\ (forall o, is_Some (increment ans m !! o) -> o ∈ options p).
Proof.
  intros Hnum Hdom Hans. destruct (Hnum ans Hans) as [n Hn].
  unfold increment. rewrite Hn. split.
  - intros o Ho. destruct (decide (ans = o)) as [->|Hne].
    + rewrite lookup_insert_eq. by eexists.
    + rewrite lookup_insert_ne by done. auto.
  - intros o. destruct (decide (ans = o)) as [->|Hne]; [done|].
    rewrite lookup_insert_ne by done. auto.
Qed.

Lemma tally_ok_frame s s' :
  currentPoll s' = currentPoll s ->
  pollResults s' = pollResults s ->
  tally_ok s -> tally_ok s'.
Proof. unfold tally_ok. by intros -> ->. Qed.

Lemma step_tally_ok now e s : tally_ok s -> tally_ok (fst (step now e s)).
Proof.
  intros Hok.
  destruct e as [sid r|]; [destruct_request r|]; simpl.
  all: try (unfold_handlers; repeat (simpl; case_match); simplify_eq/=;
            first [done | by apply (tally_ok_frame s)]).
  - (* teacher_start_poll *)
    unfold teacher_start_poll.
    destruct (invalid_poll_data pd); [done|].
    destruct (_ && _); [done|].
    by eapply tally_ok_init.
  - (* submit_answer *)
    unfold submit_answer.
    destruct (currentPoll s) as [p|] eqn:Hp; [|done].
    destruct (obj_get sid (students s)) as [st|]; [|done].
    destruct (answered st); [done|].
    destruct (includes ans (options p)) eqn:Hinc; simpl; [|done].
    destruct (_ >? _); [done|].
    destruct (_ && _); simpl; [done|].
    unfold tally_ok in *. simpl. rewrite Hp in *. destruct Hok as [H1 H2].
    apply tally_ok_increment; [done | done | by apply includes_spec].
Qed.

(** X7.  In every reachable state the tally fits the poll: while a poll is
    active each of its options has a numeric counter (never NaN) and no
    other key is counted; while none is active the tally is empty. *)
Theorem tally_fits_poll (s : State) : reachable s -> tally_ok s.
Proof.
  induction 1 as [|s now e _ IH]; [done | by apply step_tally_ok].
Qed.

Lemma tally_fits_poll_witness : tally_ok sam_bob_poll.
Proof.
  apply tally_fits_poll. unfold sam_bob_poll.
  apply reachable_run, reachable_initial.
Defined.

Lemma reset_answered_count o : answered_count (reset_answered o) = 0%nat.
Proof.
  unfold answered_count. induction o as [|[k st] o IH]; simpl; [done|]. done.
Qed.

Lemma reset_answered_length o : length (reset_answered o) = length o.
Proof. unfold reset_answered. by rewrite length_map. Qed.

(** X8.  Right after a successful start the poll is reported with every one
    of its options at 0 and nothing else counted, with no student marked as
    answered, the roster size unchanged, and with the options of the payload
    trimmed, in the order given. *)
Theorem start_zeroes_tally (sid : string) (now : Z) (pd : PollData)
    (s : State) (p : Poll) :
  (ToSocket sid, E_poll_started p) ∈ snd (teacher_start_poll sid now pd s) ->
  let s' := fst (teacher_start_poll sid now pd s) in
  (forall sid' now',
     get_current_results sid' now' s' =
       (s', [(ToSocket sid',
              E_current_results p (init_results (options p))
                (length (students s)) 0 (timeRemaining now' p))]))
  /\ (forall o, o ∈ options p -> init_results (options p) !! o = Some (Num 0))
  /\ (forall o, o ∉ options p -> init_results (options p) !! o = None)
  /\ options p = map trim (default [] (pd_options pd))
  /\ startTime p = now
  /\ names s' = names s.
Proof.
  intros Hin s'. subst s'. revert Hin. unfold teacher_start_poll.
  destruct (invalid_poll_data pd); simpl.
  { intros [=]%list_elem_of_singleton. }
  destruct (_ && _); simpl.
  { intros [=]%list_elem_of_singleton. }
  rewrite elem_of_cons, list_elem_of_singleton.
  intros [[=]|[= ->]]. simpl.
  split; [|split; [|split; [|split; [done|split; [done|]]]]].
  - intros sid' now'. unfold get_current_results. simpl.
    rewrite !reset_answered_keys, reset_answered_count.
    unfold obj_keys. by rewrite length_map.
  - intros o Ho. rewrite init_results_lookup. by rewrite decide_True.
  - intros o Ho. rewrite init_results_lookup. by rewrite decide_False.
  - unfold names. simpl. by rewrite !reset_answered_names.
Qed.

Lemma start_zeroes_tally_witness :
  init_results (options (mkPoll "Color?" ["Red"; "Blue"] 60 7 "teacher")) !! "Blue"
    = Some (Num 0).
Proof.
  destruct (start_zeroes_tally "t" 7 (color_poll DurAbsent) two_sams
              (mkPoll "Color?" ["Red"; "Blue"] 60 7 "teacher"))
    as (_ & H & _).
  - vm_compute. apply list_elem_of_further, list_elem_of_here.
  - apply H. simpl. apply list_elem_of_further, list_elem_of_here.
Defined.

Lemma obj_delete_values_elem {V} k (o : list (string * V)) x :
  x ∈ obj_values (obj_delete k o) -> x ∈ obj_values o.
Proof.
  induction o as [|[k' v'] o IH]; simpl; [done|].
  destruct (String.eqb k k'); simpl; rewrite !elem_of_cons; [by right|].
  intros [?|?]; [by left | right; auto].
Qed.

Lemma nobody_answered_reset o :
  Forall (fun st => answered st = false) (obj_values (reset_answered o)).
Proof.
  induction o as [|[k st] o IH]; simpl; [constructor|].
  apply Forall_cons. split; [done | exact IH].
Qed.

Lemma nobody_answered_set sid v (o : list (string * Student)) :
  answered v = false ->
  Forall (fun st => answered st = false) (obj_values o) ->
  Forall (fun st => answered st = false) (obj_values (obj_set sid v o)).
Proof.
  intros Hv Ho. apply Forall_forall. intros x Hx.
  apply obj_set_values_elem in Hx as [->|Hx]; [done|].
  by apply (proj1 (Forall_forall _ _) Ho).
Qed.

Lemma nobody_answered_delete k (o : list (string * Student)) :
  Forall (fun st => answered st = false) (obj_values o) ->
  Forall (fun st => answered st = false) (obj_values (obj_delete k o)).
Proof.
  intros Ho. apply Forall_forall. intros x Hx%obj_delete_values_elem.
  by apply (proj1 (Forall_forall _ _) Ho).
Qed.

Lemma step_idle_nobody_answered now e s :
  (Idle s -> nobody_answered s) ->
  Idle (fst (step now e s)) -> nobody_answered (fst (step now e s)).
Proof.
  unfold Idle, nobody_answered. intros IH.
  destruct e as [sid r|]; [destruct_request r|]; simpl.
  all: try (unfold_handlers; repeat (simpl; case_match); simplify_eq/=;
            first [done
                  | intros;
                    first [by apply nobody_answered_reset
                          | congruence | by auto]]).
  - (* join_student *)
    unfold join_student. destruct (_ || _); simpl; [done|].
    intros Hidle. apply nobody_answered_set; [|auto].
    by destruct (obj_get sid (students s)).
  - (* kick_student *)
    unfold kick_student. repeat (simpl; case_match); try done.
    intros Hidle. apply nobody_answered_delete. auto.
  - (* disconnect *)
    unfold disconnect. simpl. intros Hidle.
    apply nobody_answered_delete. auto.
Qed.

(** X9.  In every reachable state without an active poll no student is
    marked as having answered: the flags are cleared whenever a poll ends
    and are only set while one is active. *)
Theorem idle_nobody_answered (s : State) :
  reachable s -> Idle s -> nobody_answered s /\ answered_count (students s) = 0%nat.
Proof.
  intros Hr Hidle.
  assert (H : nobody_answered s).
  { revert Hidle. induction Hr as [|s now e _ IH]; [constructor|].
    by apply step_idle_nobody_answered. }
  split; [done|]. unfold nobody_answered, answered_count in *.
  induction (obj_values (students s)) as [|st l IHl]; simpl; [done|].
  apply Forall_cons in H as [-> Hl]. auto.
Qed.

Lemma idle_nobody_answered_witness :
  answered_count (students (fst (submit_answer "a" 5 "Red" sam_then_poll)))
    = 0%nat.
Proof.
  refine (proj2 (idle_nobody_answered
                   (fst (submit_answer "a" 5 "Red" sam_then_poll)) _ _)).
  - apply (reachable_step sam_then_poll 5 (FromSocket "a" (Submit_answer "Red"))).
    unfold sam_then_poll. apply reachable_run, reachable_initial.
  - reflexivity.
Defined.

(** X10.  The history is append-only: whatever events are handled, the
    records present before are still there, unchanged and in place, and at
    most one record is added per event. *)
Theorem history_append_only (evs : list (Z * event)) (s : State) :
  exists added,
    pastPolls (fst (run evs s)) = pastPolls s ++ added
    /\ (length added <= length evs)%nat.
Proof.
  revert s. induction evs as [|[now e] evs IH]; intros s; simpl.
  { exists []. split; [by rewrite app_nil_r | done]. }
  assert (H1 : exists l1, pastPolls (fst (step now e s)) = pastPolls s ++ l1
                          /\ (length l1 <= 1)%nat).
  { destruct (step_poll_cases now e s)
      as [[_ ->]|[(p & r & _ & _ & -> & _)|(sid & pd & p' & _ & _ & _ & ->)]].
    - exists []. split; [by rewrite app_nil_r | simpl; lia].
    - exists [r]. split; [done | simpl; lia].
    - simpl. destruct (currentPoll s).
      + eexists [_]. split; [done | simpl; lia].
      + exists []. split; [by rewrite app_nil_r | simpl; lia]. }
  destruct H1 as (l1 & H1 & Hlen1).
  destruct (step now e s) as [s1 out1]. simpl in H1.
  destruct (IH s1) as (l2 & H2 & Hlen2).
  destruct (run evs s1) as [s2 out2]. simpl in *.
  exists (l1 ++ l2). rewrite H2, H1, app_assoc, length_app. split; [done | lia].
Qed.

Lemma answered_count_le o : (answered_count o <= length (obj_keys o))%nat.
Proof.
  unfold answered_count. induction o as [|[k st] o IH]; simpl; [done|].
  destruct (answered st); simpl; lia.
Qed.

Lemma poll_ended_existsb res q opts (out : list emission) :
  (ToAll, E_poll_ended res q opts) ∈ out -> existsb is_poll_ended out = true.
Proof.
  induction out as [|x out IH]; [by intros ?%elem_of_nil|].
  rewrite elem_of_cons. simpl. intros [<-|?]; [done|].
  rewrite IH by done. apply orb_true_r.
Qed.

(** X11.  Whenever a step broadcasts [poll_ended], the poll it names was the
    active one, the state is Idle afterwards, and exactly one record has
    been archived which holds that poll, the very tally that was broadcast,
    the time of the step, the size of the roster and the number of students
    who had answered (never more than the roster). *)
Theorem poll_ended_matches_archive (now : Z) (e : event) (s : State)
    (res : gmap string count) (q : string) (opts : list string) :
  (ToAll, E_poll_ended res q opts) ∈ snd (step now e s) ->
  exists p answeredN,
    currentPoll s = Some p
    /\ question p = q
    /\ options p = opts
    /\ Idle (fst (step now e s))
    /\ pastPolls (fst (step now e s)) =
         pastPolls s ++
           [mkPastPoll p res now (length (students (fst (step now e s))))
                       answeredN]
    /\ (answeredN <= length (students (fst (step now e s))))%nat.
Proof.
  intros Hin. pose proof (poll_ended_existsb _ _ _ _ Hin) as Hex.
  revert Hin Hex.
  destruct e as [sid r|]; [destruct_request r|]; simpl.
  all: try (intros _; unfold_handlers; repeat (simpl; case_match);
            simplify_eq/=; discriminate).
  - (* submit_answer *)
    unfold submit_answer, Idle.
    destruct (currentPoll s) as [p|] eqn:Hp; [|done].
    destruct (obj_get sid (students s)) as [st|]; [|done].
    destruct (answered st); [done|].
    destruct (negb _); [done|].
    destruct (_ >? _); [done|].
    destruct (_ && _); [|done].
    unfold endPoll. simpl.
    rewrite !elem_of_cons, elem_of_nil.
    intros [[=]|[[=]|[[= -> -> ->]|[]]]] _.
    eexists p, _. repeat split.
    + rewrite reset_answered_length. unfold obj_keys. by rewrite length_map.
    + rewrite reset_answered_length.
      etrans; [apply answered_count_le|]. unfold obj_keys. by rewrite length_map.
  - (* teacher_end_poll *)
    unfold teacher_end_poll, endPoll, Idle.
    destruct (currentPoll s) as [p|] eqn:Hp; [|done]. simpl.
    rewrite elem_of_cons, list_elem_of_singleton.
    intros [[= -> -> ->]|[=]] _. rewrite Hp.
    eexists p, _. repeat split.
    + rewrite reset_answered_length. unfold obj_keys. by rewrite length_map.
    + rewrite reset_answered_length.
      etrans; [apply answered_count_le|]. unfold obj_keys. by rewrite length_map.
  - (* disconnect *)
    intros _ Hex.
    destruct (removal_keeps_poll now sid Disconnect s (or_introl eq_refl))
      as (_ & _ & _ & _ & H).
    simpl in H. congruence.
  - (* the timer *)
    unfold timer_fires, endPoll, Idle.
    destruct (pollTimeout s); [|done].
    destruct (currentPoll s) as [p|] eqn:Hp; [|done]. simpl.
    rewrite list_elem_of_singleton.
    intros [= -> -> ->] _. rewrite Hp.
    eexists p, _. repeat split.
    + rewrite reset_answered_length. unfold obj_keys. by rewrite length_map.
    + rewrite reset_answered_length.
      etrans; [apply answered_count_le|]. unfold obj_keys. by rewrite length_map.
Qed.

Lemma poll_ended_matches_archive_witness :
  length
    (pastPolls (fst (step 9 (FromSocket "t" Teacher_end_poll) sam_bob_poll)))
    = 1%nat.
Proof.
  destruct (poll_ended_matches_archive 9 (FromSocket "t" Teacher_end_poll)
              sam_bob_poll (pollResults sam_bob_poll) "Color?" ["Red"; "Blue"])
    as (p & n & _ & _ & _ & _ & H & _).
  - simpl. apply list_elem_of_here.
  - rewrite H. reflexivity.
Defined.

(** ** Answers *)

(** X12.  A submission is accepted exactly when a poll is active, the
    socket has a roster entry that is not marked answered, the answer is
    literally one of the poll's (trimmed) options, and no more than the
    poll's duration has passed since its start.  A submission that is not
    accepted changes nothing and is answered by a single [answer_error],
    sent to the submitting socket only. *)
Theorem submit_accepted_iff (sid : string) (now : Z) (ans : string)
    (s : State) :
  (accepted (snd (submit_answer sid now ans s)) = true <->
     exists p st,
       currentPoll s = Some p
       /\ obj_get sid (students s) = Some st
       /\ answered st = false
       /\ ans ∈ options p
       /\ now - startTime p <= duration p * 1000)
  /\ (accepted (snd (submit_answer sid now ans s)) = false ->
      exists m,
        submit_answer sid now ans s = (s, [(ToSocket sid, E_answer_error m)])).
Proof.
  unfold submit_answer.
  destruct (currentPoll s) as [p|] eqn:Hp.
  2: { split; [|by eexists]. split; [done|]. by intros (? & ? & [=] & _). }
  destruct (obj_get sid (students s)) as [st|] eqn:Hget.
  2: { split; [|by eexists]. split; [done|]. by intros (? & ? & _ & [=] & _). }
  destruct (answered st) eqn:Hans.
  { split; [|by eexists]. split; [done|].
    intros (? & ? & _ & [= <-] & ? & _). congruence. }
  destruct (includes ans (options p)) eqn:Hinc; simpl.
  2: { split; [|by eexists]. split; [done|].
       intros (? & ? & [= <-] & _ & _ & Hin%includes_spec & _). congruence. }
  apply includes_spec in Hinc.
  destruct (Z.gtb_spec (now - startTime p) (duration p * 1000)).
  { split; [|by eexists]. split; [done|].
    intros (? & ? & [= <-] & _ & _ & _ & ?). lia. }
  destruct (_ && _); simpl.
  - split; [|done]. split; [|done]. intros _. by eexists _, _.
  - split; [|done]. split; [|done]. intros _. by eexists _, _.
Qed.

Lemma submit_accepted_iff_witness :
  accepted (snd (submit_answer "a" 3 " Red" sam_bob_poll)) = false
  /\ exists m,
       submit_answer "a" 3 " Red" sam_bob_poll
         = (sam_bob_poll, [(ToSocket "a", E_answer_error m)]).
Proof.
  assert (H : accepted (snd (submit_answer "a" 3 " Red" sam_bob_poll)) = false)
    by reflexivity.
  split; [exact H|].
  exact (proj2 (submit_accepted_iff "a" 3 " Red" sam_bob_poll) H).
Defined.

(** X13.  In a state whose tally fits the poll, an accepted submission
    counts exactly once: the counter of the chosen option goes from n to
    n + 1 and no other counter changes.  This tally is what the submitter
    and everyone else are sent; if the poll is still active afterwards it is
    the stored tally, and the student's entry records the answer and the
    time. *)
Theorem accepted_counts_once (sid : string) (now : Z) (ans : string)
    (s : State) :
  tally_ok s ->
  accepted (snd (submit_answer sid now ans s)) = true ->
  exists n total answeredN rest,
    pollResults s !! ans = Some (Num n)
    /\ increment ans (pollResults s) = <[ans := Num (S n)]> (pollResults s)
    /\ snd (submit_answer sid now ans s) =
         (ToSocket sid,
          E_answer_submitted ans (<[ans := Num (S n)]> (pollResults s))
            "Your answer has been recorded!")
         :: (ToAll,
             E_live_results (<[ans := Num (S n)]> (pollResults s))
               total answeredN)
         :: rest
    /\ (Active (fst (submit_answer sid now ans s)) ->
        pollResults (fst (submit_answer sid now ans s)) =
          <[ans := Num (S n)]> (pollResults s)
        /\ exists st,
             obj_get sid (students (fst (submit_answer sid now ans s)))
               = Some st
             /\ answered st = true
             /\ answer st = Some ans
             /\ answeredAt st = Some now).
Proof.
  intros Hok. unfold submit_answer, tally_ok, Active in *.
  destruct (currentPoll s) as [p|] eqn:Hp; [|done].
  destruct (obj_get sid (students s)) as [st|] eqn:Hget; [|done].
  destruct (answered st); [done|].
  destruct (includes ans (options p)) eqn:Hinc; simpl; [|done].
  destruct (_ >? _); [done|].
  destruct Hok as [Hnum _].
  destruct (Hnum ans (proj1 (includes_spec _ _) Hinc)) as [n Hn].
  assert (Hincr : increment ans (pollResults s) =
                  <[ans := Num (S n)]> (pollResults s)).
  { unfold increment. by rewrite Hn. }
  rewrite Hincr. intros _. exists n.
  destruct (_ && _); simpl.
  - eexists _, _, _. repeat split; try done; by intros [? [=]].
  - eexists _, _, _. repeat split; try done.
    eexists. split; [apply obj_get_set_eq | done].
Qed.

Lemma accepted_counts_once_witness :
  pollResults (fst (submit_answer "a" 3 "Red" sam_bob_poll)) !! "Red"
    = Some (Num 1).
Proof.
  destruct (accepted_counts_once "a" 3 "Red" sam_bob_poll)
    as (n & t & a & rest & Hn & _ & _ & H).
  - apply (tally_ok_init (mkPoll "Color?" ["Red"; "Blue"] 60 2 "teacher"));
      reflexivity.
  - reflexivity.
  - reflexivity.
Defined.

(** X14.  The remaining time reported for a poll is never negative, is at
    most the poll's duration once the poll has started, and is 0 exactly
    from the instant at which the duration has elapsed.  An answer is
    refused as expired only when the remaining time is 0; at the very
    instant of expiry the remaining time is 0 already but the answer is not
    yet refused as expired. *)
Theorem timeRemaining_bounds (now : Z) (p : Poll) :
  0 <= timeRemaining now p
  /\ (startTime p <= now -> 0 <= duration p ->
      timeRemaining now p <= duration p * 1000)
  /\ (timeRemaining now p = 0 <-> startTime p + duration p * 1000 <= now)
  /\ (forall sid ans s,
        currentPoll s = Some p ->
        (snd (submit_answer sid now ans s) = expired_error sid ->
           timeRemaining now p = 0)
        /\ (now - startTime p = duration p * 1000 ->
            timeRemaining now p = 0
            /\ snd (submit_answer sid now ans s) <> expired_error sid)).
Proof.
  unfold timeRemaining. repeat split; try lia.
  - pose proof (submit_answer_expiry sid now ans s p H) as [Hexp _].
    intros Hx. specialize (Hexp Hx). lia.
  - pose proof (submit_answer_expiry sid now ans s p H) as [Hexp _].
    intros Hx. specialize (Hexp Hx). lia.
Qed.

Lemma timeRemaining_bounds_witness :
  timeRemaining 60002 (mkPoll "Color?" ["Red"; "Blue"] 60 2 "teacher") = 0
  /\ snd (submit_answer "a" 60002 "Red" sam_bob_poll) <> expired_error "a".
Proof.
  destruct (timeRemaining_bounds 60002
              (mkPoll "Color?" ["Red"; "Blue"] 60 2 "teacher"))
    as (_ & _ & _ & H).
  destruct (H "a" "Red" sam_bob_poll eq_refl) as [_ H2].
  apply H2. reflexivity.
Defined.

(** ** Chat membership *)

Section ListFacts.
Context {A : Type} (f : A -> bool).

Lemma remove_first_elem (l : list A) x : x ∈ remove_first f l -> x ∈ l.
Proof.
  induction l as [|y l IH]; simpl; [done|].
  destruct (f y); rewrite ?elem_of_cons; [by right|].
  intros [?|?]; [by left | right; auto].
Qed.

Lemma remove_first_keeps (l : list A) x :
  x ∈ l -> f x = false -> x ∈ remove_first f l.
Proof.
  induction l as [|y l IH]; simpl; [done|].
  rewrite elem_of_cons. intros [->|Hin] Hx.
  - rewrite Hx. apply list_elem_of_here.
  - destruct (f y); [done|]. apply list_elem_of_further. auto.
Qed.

Lemma filter_elem (l : list A) x :
  x ∈ List.filter f l <-> x ∈ l /\ f x = true.
Proof.
  induction l as [|y l IH]; simpl.
  - split; [by intros ?%elem_of_nil | by intros [?%elem_of_nil _]].
  - destruct (f y) eqn:E; rewrite ?elem_of_cons, IH; [naive_solver|].
    split; [naive_solver|]. intros [[->|?] ?]; [congruence | done].
Qed.

Lemma find_Some_elem (l : list A) x :
  List.find f l = Some x -> x ∈ l /\ f x = true.
Proof.
  induction l as [|y l IH]; simpl; [done|].
  destruct (f y) eqn:E.
  - intros [= ->]. split; [apply list_elem_of_here | done].
  - intros H. destruct (IH H). split; [by apply list_elem_of_further | done].
Qed.

Lemma remove_first_length (l : list A) x :
  List.find f l = Some x -> S (length (remove_first f l)) = length l.
Proof.
  induction l as [|y l IH]; simpl; [done|].
  destruct (f y); simpl; [done|]. intros H. by rewrite IH.
Qed.

End ListFacts.

Section ListMapFacts.
Context {A B : Type} (g : A -> B) (f : A -> bool).

Lemma remove_first_NoDup (l : list A) :
  NoDup (map g l) -> NoDup (map g (remove_first f l)).
Proof.
  induction l as [|y l IH]; simpl; [done|].
  intros [Hy Hnd]%NoDup_cons. destruct (f y); simpl; [done|].
  apply NoDup_cons. split; [|auto].
  intros Hin. apply Hy.
  apply list_elem_of_fmap in Hin as (z & -> & Hz).
  apply list_elem_of_fmap. exists z. split; [done|].
  by eapply remove_first_elem.
Qed.

Lemma filter_NoDup (l : list A) :
  NoDup (map g l) -> NoDup (map g (List.filter f l)).
Proof.
  induction l as [|y l IH]; simpl; [done|].
  intros [Hy Hnd]%NoDup_cons. destruct (f y); simpl; [|auto].
  apply NoDup_cons. split; [|auto].
  intros Hin. apply Hy.
  apply list_elem_of_fmap in Hin as (z & -> & Hz).
  apply list_elem_of_fmap. exists z. split; [done|].
  by apply filter_elem in Hz as [? _].
Qed.
End ListMapFacts.

Lemma step_chat_names_unique now e s :
  chat_names_unique s -> chat_names_unique (fst (step now e s)).
Proof.
  unfold chat_names_unique. intros Hu.
  destruct e as [sid r|]; [destruct_request r|]; simpl.
  all: try (unfold_handlers; repeat (simpl; case_match); simplify_eq/=;
            done).
  - (* join-chat *)
    unfold join_chat. simpl. intros k parts.
    destruct (decide (k' = k)) as [->|Hne].
    2: { rewrite lookup_insert_ne by done. apply Hu. }
    rewrite lookup_insert_eq. intros [= <-].
    assert (Hold : NoDup (map p_name (default [] (chatParticipants s !! k)))).
    { destruct (chatParticipants s !! k) eqn:E; simpl; [eauto | constructor]. }
    destruct (List.find _ _) eqn:Hfind; [done|].
    rewrite map_app. simpl. apply NoDup_app.
    split; [done|]. split; [|apply NoDup_singleton].
    intros x Hx ->%list_elem_of_singleton.
    apply find_name_Some in Hx as [q Hq]. congruence.
  - (* kick-user *)
    unfold kick_user.
    destruct (chatParticipants s !! k') as [parts0|] eqn:E; [|done].
    destruct (List.find _ _); [|done]. simpl. intros k parts.
    destruct (decide (k' = k)) as [->|Hne].
    2: { rewrite lookup_insert_ne by done. apply Hu. }
    rewrite lookup_insert_eq. intros [= <-].
    apply remove_first_NoDup. eauto.
  - (* leave-chat *)
    unfold leave_chat.
    destruct (chatParticipants s !! k') as [parts0|] eqn:E; [|done].
    simpl. intros k parts.
    destruct (decide (k' = k)) as [->|Hne].
    2: { rewrite lookup_insert_ne by done. apply Hu. }
    rewrite lookup_insert_eq. intros [= <-].
    apply filter_NoDup. eauto.
  - (* disconnect *)
    unfold disconnect. simpl. intros k parts. rewrite lookup_fmap.
    destruct (chatParticipants s !! k) as [parts0|] eqn:E; [|done].
    simpl. intros [= <-]. apply remove_first_NoDup. eauto.
Qed.

(** X15.  In every reachable state the participant names of each chat
    session are pairwise different: [join-chat] adds a name only when it is
    not listed, and nothing else adds entries. *)
Theorem chat_names_stay_unique (s : State) :
  reachable s -> chat_names_unique s.
Proof.
  induction 1 as [|s now e _ IH]; [|by apply step_chat_names_unique].
  intros k parts H. simpl in H. by rewrite lookup_empty in H.
Qed.

Lemma chat_names_stay_unique_witness :
  NoDup (map p_name (default [] (chatParticipants ann_twice !! "room1"))).
Proof.
  assert (Hr : reachable ann_twice).
  { unfold ann_twice. apply reachable_run, reachable_initial. }
  exact (chat_names_stay_unique ann_twice Hr "room1" _ eq_refl).
Defined.

Lemma remove_first_name_gone userName (parts : list ChatParticipant) :
  NoDup (map p_name parts) ->
  userName ∉ map p_name
    (remove_first (fun p => String.eqb (p_name p) userName) parts).
Proof.
  induction parts as [|q parts IH]; simpl; [intros _; apply not_elem_of_nil|].
  intros [Hq Hnd]%NoDup_cons.
  destruct (String.eqb_spec (p_name q) userName) as [<-|Hne]; [done|].
  simpl. rewrite not_elem_of_cons. split; [congruence | auto].
Qed.

(** X16.  [kick-user] does nothing and emits nothing when the session does
    not exist or lists nobody of that name.  Otherwise (the names of a
    session being pairwise different) it removes the participant of that
    name and no other, so that the name is no longer listed; the socket
    stored with the removed entry is told [user-kicked] and the room gets
    the new list. *)
Theorem kick_user_removes_name (sid : string) (sessionId userName : string)
    (s : State) :
  (userName ∉ map p_name (default [] (chatParticipants s !! sessionId)) ->
     kick_user sid sessionId userName s = (s, []))
  /\ (forall parts,
        chatParticipants s !! sessionId = Some parts ->
        NoDup (map p_name parts) ->
        userName ∈ map p_name parts ->
        exists p parts',
          p ∈ parts /\ p_name p = userName
          /\ chatParticipants (fst (kick_user sid sessionId userName s))
               !! sessionId = Some parts'
          /\ (userName ∉ map p_name parts')
          /\ S (length parts') = length parts
          /\ (forall q, q ∈ parts -> p_name q <> userName -> q ∈ parts')
          /\ (forall q, q ∈ parts' -> q ∈ parts)
          /\ snd (kick_user sid sessionId userName s) =
               [(ToSocket (p_id p),
                 E_user_kicked
                   "You have been removed from the chat by the teacher."
                   userName);
                (ToRoom (room_of sessionId), E_participants_updated parts')]).
Proof.
  split.
  - intros Hnot. unfold kick_user.
    destruct (chatParticipants s !! sessionId) as [parts|]; [|done].
    simpl in Hnot. by rewrite (find_name_None _ _ Hnot).
  - intros parts Hparts Hnd Hin.
    destruct (find_name_Some _ _ Hin) as [p Hp].
    destruct (find_Some_elem _ _ _ Hp) as [Hpin Hpn%String.eqb_eq].
    unfold kick_user. rewrite Hparts, Hp. simpl. rewrite lookup_insert_eq.
    eexists p, _. repeat split; try done.
    + by apply remove_first_name_gone.
    + by eapply remove_first_length.
    + intros q Hq Hne. apply remove_first_keeps; [done|].
      by apply String.eqb_neq.
    + intros q. apply remove_first_elem.
Qed.

Lemma kick_user_removes_name_witness :
  map p_name
    (default [] (chatParticipants (fst (kick_user "t" "room1" "Bob" ann_twice))
                   !! "room1"))
    = ["Ann"; "Annie"]
  /\ kick_user "t" "room1" "Zed" ann_twice = (ann_twice, []).
Proof.
  destruct (kick_user_removes_name "t" "room1" "Bob" ann_twice) as [_ H1].
  destruct (kick_user_removes_name "t" "room1" "Zed" ann_twice) as [H2 _].
  split.
  - destruct (H1 _ eq_refl) as (p & parts' & _ & _ & Hs & _).
    + compute_done.
    + compute_done.
    + reflexivity.
  - apply H2. compute_done.
Defined.

Lemma state_eta s :
  mkState (currentPoll s) (students s) (pollResults s) (pastPolls s)
          (pollTimeout s) (chatMessages s) (chatParticipants s) = s.
Proof. by destruct s. Qed.

(** X17.  [leave-chat] goes by the socket, not by the user name it is
    given: in the named session it removes every entry stored with the
    leaving socket and keeps all others in order, and the room gets the new
    list.  If the socket has no entry there the state is unchanged (the
    room still gets the unchanged list); if the session does not exist
    nothing happens at all. *)
Theorem leave_chat_by_socket (sid : string) (sessionId user : string)
    (s : State) :
  (forall user', leave_chat sid sessionId user' s = leave_chat sid sessionId user s)
  /\ (chatParticipants s !! sessionId = None ->
      leave_chat sid sessionId user s = (s, []))
  /\ (forall parts,
        chatParticipants s !! sessionId = Some parts ->
        chatParticipants (fst (leave_chat sid sessionId user s)) !! sessionId
          = Some (entries_of_others sid parts)
        /\ (forall q, q ∈ entries_of_others sid parts <->
                      q ∈ parts /\ p_id q <> sid)
        /\ snd (leave_chat sid sessionId user s) =
             [(ToRoom (room_of sessionId),
               E_participants_updated (entries_of_others sid parts))]
        /\ (sid ∉ map p_id parts ->
            entries_of_others sid parts = parts
            /\ fst (leave_chat sid sessionId user s) = s)).
Proof.
  split; [done|]. split.
  - intros H. unfold leave_chat. by rewrite H.
  - intros parts Hparts. unfold leave_chat, entries_of_others.
    rewrite Hparts. simpl. rewrite lookup_insert_eq.
    split; [done|]. split.
    + intros q. rewrite filter_elem, negb_true_iff, String.eqb_neq. done.
    + split; [done|]. intros Hnot.
      assert (Hid : List.filter (fun p => negb (String.eqb (p_id p) sid)) parts
                    = parts).
      { clear Hparts. induction parts as [|q parts IH]; simpl; [done|].
        simpl in Hnot. apply not_elem_of_cons in Hnot as [Hne Hnot].
        destruct (String.eqb_spec (p_id q) sid); [congruence|]. simpl.
        by rewrite IH. }
      split; [done|]. rewrite Hid, (insert_id _ _ _ Hparts).
      apply state_eta.
Qed.

Lemma leave_chat_by_socket_witness :
  map p_name
    (default [] (chatParticipants (fst (leave_chat "a" "room1" "Ann" ann_twice))
                   !! "room1"))
    = ["Bob"].
Proof.
  destruct (leave_chat_by_socket "a" "room1" "Ann" ann_twice) as (_ & _ & H).
  destruct (H _ eq_refl) as (-> & _). reflexivity.
Defined.




(** X19.  The poll engine and the chat rooms do not interfere: a chat
    request leaves the poll, the roster, the tally, the history and the
    timer as they are and broadcasts nothing to all sockets; every other
    request except [disconnect], and the timer, leave the chat logs and the
    participant lists as they are. *)
Theorem poll_and_chat_independent (sid : string) (now : Z) (r : request)
    (s : State) :
  (is_chat_request r = true ->
     currentPoll (fst (handle sid now r s)) = currentPoll s
     /\ students (fst (handle sid now r s)) = students s
     /\ pollResults (fst (handle sid now r s)) = pollResults s
     /\ pastPolls (fst (handle sid now r s)) = pastPolls s
     /\ pollTimeout (fst (handle sid now r s)) = pollTimeout s
     /\ forall m, (ToAll, m) ∉ snd (handle sid now r s))
  /\ (is_chat_request r = false ->
      chatMessages (fst (handle sid now r s)) = chatMessages s
      /\ (r <> Disconnect ->
          chatParticipants (fst (handle sid now r s)) = chatParticipants s))
  /\ chatMessages (fst (timer_fires now s)) = chatMessages s
  /\ chatParticipants (fst (timer_fires now s)) = chatParticipants s.
Proof.
  split; [|split; [|split]].
  - destruct_request r; try done; intros _; simpl.
    all: unfold_handlers; repeat (simpl; case_match); simplify_eq/=.
    all: repeat split; try done.
    all: intros m; rewrite ?elem_of_cons, ?elem_of_nil; naive_solver.
  - destruct_request r; try done; intros _; simpl.
    all: unfold_handlers; repeat (simpl; case_match); simplify_eq/=.
    all: by split.
  - unfold_handlers. by repeat (simpl; case_match).
  - unfold_handlers. by repeat (simpl; case_match).
Qed.

Lemma poll_and_chat_independent_witness :
  pollResults (fst (handle "a" 9 (Leave_chat "room1" "Ann") sam_bob_poll))
    = pollResults sam_bob_poll
  /\ chatParticipants (fst (handle "a" 9 (Submit_answer "Red") ann_twice))
     = chatParticipants ann_twice.
Proof.
  split.
  - exact (proj1 (proj2 (proj2
             (proj1 (poll_and_chat_independent "a" 9 (Leave_chat "room1" "Ann")
                       sam_bob_poll) eq_refl)))).
  - refine (proj2 (proj1 (proj2
             (poll_and_chat_independent "a" 9 (Submit_answer "Red") ann_twice))
             eq_refl) _).
    discriminate.
Defined.

(** ** The older variant's join *)

(** X20.  In the older server variant [join_student] does no collision
    handling.  For a name that is not blank the socket's record is replaced
    by a fresh one bearing the trimmed name, unanswered and with no recorded
    answer, whether or not the socket was registered and whether or not the
    name is taken; the reply carries the trimmed name.  So when another
    socket bears that name, two students bear it afterwards.  A blank name
    is refused and changes nothing. *)
Theorem join_student_v1_overwrites (sid : string) (now : Z) (nm : string)
    (currentPoll : option Poll) (students : list (string * StudentV1)) :
  (all_white_space nm = true ->
     join_student_v1 sid now nm currentPoll students =
       (students, [(ToSocket sid, V1_join_error "Name is required")]))
  /\ (all_white_space nm = false ->
      obj_get sid (fst (join_student_v1 sid now nm currentPoll students))
        = Some (mkStudentV1 (trim nm) false now None None)
      /\ (forall k, k <> sid ->
            obj_get k (fst (join_student_v1 sid now nm currentPoll students))
              = obj_get k students)
      /\ head (snd (join_student_v1 sid now nm currentPoll students))
         = Some (ToSocket sid, V1_join_success (trim nm))
      /\ (forall k st,
            k <> sid -> obj_get k students = Some st -> v1_name st = trim nm ->
            ~ NoDup (map v1_name
                       (obj_values
                          (fst (join_student_v1 sid now nm currentPoll
                                  students)))))).
Proof.
  split.
  - intros H%trim_blank. unfold join_student_v1. rewrite H. simpl.
    by rewrite orb_true_r.
  - intros H.
    assert (Hnm : trim nm <> "").
    { intros E%trim_blank. congruence. }
    unfold join_student_v1. rewrite (trim_nonempty _ Hnm). simpl.
    split; [apply obj_get_set_eq|].
    split; [intros k Hk; by apply obj_get_set_ne|]. split; [done|].
    intros k st Hk Hget Hname Hnd.
    set (v := mkStudentV1 (trim nm) false now None None) in *.
    assert (H1 : (sid, v) ∈ obj_set sid v students).
    { apply obj_get_elem, obj_get_set_eq. }
    assert (H2 : (k, st) ∈ obj_set sid v students).
    { apply obj_get_elem. by rewrite obj_get_set_ne. }
    apply list_elem_of_lookup in H1 as [i Hi], H2 as [j Hj].
    assert (Hij : i = j).
    { eapply (NoDup_lookup _ i j (trim nm) Hnd).
      - unfold obj_values. rewrite !list_lookup_fmap, Hi. done.
      - unfold obj_values. rewrite !list_lookup_fmap, Hj. simpl.
        by rewrite Hname. }
    subst j. rewrite Hi in Hj. congruence.
Qed.

Lemma join_student_v1_overwrites_witness :
  map v1_name
    (obj_values
       (fst (join_student_v1 "b" 3 " Sam" None
               [("a", mkStudentV1 "Sam" true 0 (Some "Red") (Some 2))])))
    = ["Sam"; "Sam"].
Proof.
  destruct (join_student_v1_overwrites "b" 3 " Sam" None
              [("a", mkStudentV1 "Sam" true 0 (Some "Red") (Some 2))])
    as [_ H].
  destruct (H eq_refl) as (_ & _ & _ & _). reflexivity.
Defined.

(** ** Trimmed texts *)

Lemma trim_end_idem s : trim_end (trim_end s) = trim_end s.
Proof.
  induction s as [|c s IH]; simpl; [done|].
  destruct (trim_end s) as [|d r] eqn:E.
  - destruct (is_white_space c) eqn:Ec; simpl; [done | by rewrite Ec].
  - change (trim_end (String c (String d r))) with
      (match trim_end (String d r) with
       | EmptyString =>
           if is_white_space c then EmptyString else String c EmptyString
       | r' => String c r'
       end).
    by rewrite IH.
Qed.

Lemma trim_start_head s c r :
  trim_start s = String c r -> is_white_space c = false.
Proof.
  induction s as [|d s IH]; simpl; [done|].
  destruct (is_white_space d) eqn:E; [done|]. by intros [= <- _].
Qed.

Lemma trim_end_head c r :
  is_white_space c = false -> exists r', trim_end (String c r) = String c r'.
Proof.
  intros Hc. simpl. destruct (trim_end r); rewrite ?Hc; by eexists.
Qed.

Lemma trim_idem s : trim (trim s) = trim s.
Proof.
  unfold trim. destruct (trim_start s) as [|c r] eqn:E; [done|].
  pose proof (trim_start_head _ _ _ E) as Hc.
  destruct (trim_end_head c r Hc) as [r' Hr]. rewrite Hr.
  assert (Hs : trim_start (String c r') = String c r').
  { simpl. by rewrite Hc. }
  by rewrite Hs, <- Hr, trim_end_idem.
Qed.

(** X21.  The question and the options a started poll stores are trimmed:
    trimming them again changes nothing.  Answers are compared with these
    stored texts as they are, so an answer is accepted only if it is itself
    a trimmed text. *)
Theorem stored_texts_are_trimmed (sid : string) (now : Z) (pd : PollData)
    (s : State) (p : Poll) :
  (ToSocket sid, E_poll_started p) ∈ snd (teacher_start_poll sid now pd s) ->
  trim (question p) = question p
  /\ (forall o, o ∈ options p -> trim o = o)
  /\ (forall sid' now' ans,
        accepted
          (snd (submit_answer sid' now' ans
                  (fst (teacher_start_poll sid now pd s)))) = true ->
        trim ans = ans).
Proof.
  intros Hin.
  destruct (teacher_start_poll_started _ _ _ _ _ Hin) as (-> & Hcur & _).
  simpl in *.
  assert (Hopts : forall o,
            o ∈ map trim (default [] (pd_options pd)) -> trim o = o).
  { intros o (x & -> & _)%list_elem_of_fmap. apply trim_idem. }
  split; [apply trim_idem|]. split; [done|].
  intros sid' now' ans. unfold submit_answer. rewrite Hcur.
  destruct (obj_get sid' _); [|done].
  destruct (answered _); [done|].
  destruct (includes ans _) eqn:Hinc; simpl; [|done].
  intros _. apply Hopts. by apply includes_spec.
Qed.

Lemma stored_texts_are_trimmed_witness :
  accepted
    (snd (submit_answer "a" 8 " Red "
            (fst (teacher_start_poll "t" 7 same_option_twice_poll two_sams))))
    = false.
Proof.
  destruct (stored_texts_are_trimmed "t" 7 same_option_twice_poll two_sams
              (mkPoll "Color?" ["Red"; "Red"] 60 7 "teacher"))
    as (_ & _ & H).
  - vm_compute. apply list_elem_of_further, list_elem_of_here.
  - destruct (accepted _) eqn:E; [|reflexivity].
    apply H in E. vm_compute in E. discriminate E.
Defined.
